(** * Task server: store, task manager and request handler

    A shallow embedding of [database.cpp] (class [Database], over SQLite),
    of the task manager (class [TaskManager]) and of
    [HttpServer::handle_api_request] ([http_server.cpp]), and the properties
    of the request-processing pipeline stated over it.

    Conventions of the embedding.
    - [std::string] is [string]; [length] counts its bytes.  A C string
      ([const char*]) read from a [std::string] stops at its first NUL
      byte: [c_str].
    - [int] is [Z] with the 32-bit wrap-around written out ([to_int]); SQLite
      row ids are 64-bit.
    - A C++ call is a state transformer over the SQLite connection that
      returns, throws a [std::exception], or runs into undefined
      behaviour ([outcome]); the connection carries the script of the
      faults of the environment ([faults]).
    - The SQLite C API and Boost.JSON are libraries, not code of the
      repository; they are modelled after their documentation. *)

From Stdlib Require Import ZArith String Ascii List Lia.
From stdpp Require Import base option gmap strings pretty list sorting.

Local Open Scope string_scope.
Local Open Scope Z_scope.

(** ** Strings and integers *)

(** The NUL byte. *)
Definition NUL : ascii := Ascii.zero.

(** [s.c_str()] handed to a function that reads a NUL-terminated string:
    the bytes of [s] before its first NUL. *)
Fixpoint c_str (s : string) : string :=
  match s with
  | EmptyString => EmptyString
  | String a s' => if Ascii.eqb a NUL then EmptyString else String a (c_str s')
  end.

(** [s.empty()] *)
Definition empty (s : string) : bool :=
  match s with EmptyString => true | String _ _ => false end.

(** [s.length()] *)
Definition length (s : string) : nat := String.length s.

(** Conversion of a 64-bit value to [int]. *)
Definition to_int (z : Z) : Z := (z + 2 ^ 31) mod 2 ^ 32 - 2 ^ 31.

(** [std::to_string(int)] *)
Definition to_string (z : Z) : string := pretty z.

(** ** Exceptions and outcomes *)

(** The exception classes the program meets.  [json_error] stands for what
    Boost.JSON throws; all three derive from [std::exception]. *)
Inductive exception_class := invalid_argument | runtime_error | json_error.

Record exception := Exception { class : exception_class; message : string }.

(** [e.what()]: the message as a C string. *)
Definition what (e : exception) : string := c_str (message e).

(** How a call ends: it returns, it throws, or it has undefined behaviour
    (here: a null [const char*] assigned to a [std::string]). *)
Inductive outcome (A : Type) :=
| Returned (a : A)
| Thrown (e : exception)
| Undefined.
Arguments Returned {A} a.
Arguments Thrown {A} e.
Arguments Undefined {A}.

(** ** SQLite *)

Module Sqlite.

Inductive rc := SQLITE_OK | SQLITE_ERROR | SQLITE_FULL | SQLITE_ROW | SQLITE_DONE.

Definition rc_eqb (a b : rc) : bool :=
  match a, b with
  | SQLITE_OK, SQLITE_OK | SQLITE_ERROR, SQLITE_ERROR | SQLITE_FULL, SQLITE_FULL
  | SQLITE_ROW, SQLITE_ROW | SQLITE_DONE, SQLITE_DONE => true
  | _, _ => false
  end.

(** A row of
    [tasks(id INTEGER PRIMARY KEY AUTOINCREMENT, title TEXT NOT NULL,
           description TEXT, completed BOOLEAN DEFAULT 0)]
    without its key, as this program writes it: [add_task] and
    [update_task] bind a text to the description.  A NULL description,
    which the schema allows and only another program can store, is not a
    [row]; what is stated about the rows of a table is stated about
    tables without one. *)
Record row := Row { row_title : string; row_description : string; row_completed : Z }.

(** What the environment does to the next statement: nothing, or
    [sqlite3_prepare_v2] fails, or [sqlite3_step] fails (I/O error, busy
    or corrupt file, missing table), leaving the given error message. *)
Inductive fault := no_fault | prepare_fails (msg : string) | step_fails (msg : string).

(** The connection [sqlite3* db_] together with the file behind it.
    [tasks] is the table, keyed by row id; [sqlite_sequence] is the largest
    row id AUTOINCREMENT has given out; [statements] counts the prepared
    statements not yet finalized; [faults] scripts the environment, one
    entry per statement, none left meaning no fault. *)
Record sqlite3 := Sqlite3 {
  tasks : gmap Z row;
  sqlite_sequence : Z;
  last_insert_rowid : Z;
  changes : Z;
  errmsg : string;
  statements : nat;
  faults : list fault }.

(** A prepared statement of the program with its parameters bound. *)
Inductive stmt :=
| INSERT (title description : string) (completed : Z)
| UPDATE (title description : string) (completed id : Z)
| DELETE (id : Z)
| SELECT_BY_ID (id : Z)
| SELECT_ALL.

(** What [sqlite3_errmsg] answers after a call that succeeded, after a
    step that answered [SQLITE_DONE] and after one that answered
    [SQLITE_ROW]. *)
Definition not_an_error : string := "not an error".
Definition no_more_rows : string := "no more rows available".
Definition another_row : string := "another row available".

Definition max_rowid (t : gmap Z row) : Z := foldr Z.max 0 ((map_to_list t).*1).

(** The row id AUTOINCREMENT picks: one more than the largest ever used. *)
Definition next_rowid (db : sqlite3) : Z :=
  Z.max (sqlite_sequence db) (max_rowid (tasks db)) + 1.

Definition max_int64 : Z := 2 ^ 63 - 1.

(** [sqlite3_prepare_v2(db_, sql, -1, &stmt, nullptr)]: on failure no
    statement is created ([stmt] is set to null). *)
Definition prepare (db : sqlite3) : rc * sqlite3 :=
  match faults db with
  | prepare_fails msg :: fs =>
      (SQLITE_ERROR,
       Sqlite3 (tasks db) (sqlite_sequence db) (last_insert_rowid db) (changes db)
               msg (statements db) fs)
  | _ =>
      (SQLITE_OK,
       Sqlite3 (tasks db) (sqlite_sequence db) (last_insert_rowid db) (changes db)
               not_an_error (S (statements db)) (faults db))
  end.

(** [sqlite3_finalize(stmt)] for a statement whose last [sqlite3_step]
    answered [r]: the statement is released, and the error of the
    connection becomes that of the statement, none unless its step
    failed. *)
Definition finalize (r : rc) (db : sqlite3) : sqlite3 :=
  Sqlite3 (tasks db) (sqlite_sequence db) (last_insert_rowid db) (changes db)
          (match r with
           | SQLITE_ERROR | SQLITE_FULL => errmsg db
           | _ => not_an_error
           end)
          (Nat.pred (statements db)) (faults db).

(** The fault of the statement being stepped, and the script after it. *)
Definition next_fault (db : sqlite3) : fault * list fault :=
  match faults db with
  | [] => (no_fault, [])
  | f :: fs => (f, fs)
  end.

(** The table, the counters and the result code after a statement ran
    without fault; [cur] is the row the statement then points to. *)
Definition execute (s : stmt) (db : sqlite3) (fs : list fault)
  : rc * option (Z * row) * sqlite3 :=
  match s with
  | INSERT t d c =>
      let k := next_rowid db in
      if max_int64 <? k then
        (SQLITE_FULL, None,
         Sqlite3 (tasks db) (sqlite_sequence db) (last_insert_rowid db) (changes db)
                 "database or disk is full" (statements db) fs)
      else
        (SQLITE_DONE, None,
         Sqlite3 (<[k := Row t d c]> (tasks db)) k k 1
                 no_more_rows (statements db) fs)
  | UPDATE t d c k =>
      match tasks db !! k with
      | Some _ =>
          (SQLITE_DONE, None,
           Sqlite3 (<[k := Row t d c]> (tasks db)) (sqlite_sequence db)
                   (last_insert_rowid db) 1 no_more_rows (statements db) fs)
      | None =>
          (SQLITE_DONE, None,
           Sqlite3 (tasks db) (sqlite_sequence db)
                   (last_insert_rowid db) 0 no_more_rows (statements db) fs)
      end
  | DELETE k =>
      match tasks db !! k with
      | Some _ =>
          (SQLITE_DONE, None,
           Sqlite3 (delete k (tasks db)) (sqlite_sequence db)
                   (last_insert_rowid db) 1 no_more_rows (statements db) fs)
      | None =>
          (SQLITE_DONE, None,
           Sqlite3 (tasks db) (sqlite_sequence db)
                   (last_insert_rowid db) 0 no_more_rows (statements db) fs)
      end
  | SELECT_BY_ID k =>
      let db' msg := Sqlite3 (tasks db) (sqlite_sequence db) (last_insert_rowid db)
                             (changes db) msg (statements db) fs in
      match tasks db !! k with
      | Some r => (SQLITE_ROW, Some (k, r), db' another_row)
      | None => (SQLITE_DONE, None, db' no_more_rows)
      end
  | SELECT_ALL =>
      (SQLITE_DONE, None,
       Sqlite3 (tasks db) (sqlite_sequence db) (last_insert_rowid db)
               (changes db) no_more_rows (statements db) fs)
  end.

(** The first [sqlite3_step(stmt)] of a statement: the result code, the row
    the statement points to afterwards (if any), the connection. *)
Definition step (s : stmt) (db : sqlite3) : rc * option (Z * row) * sqlite3 :=
  match next_fault db with
  | (step_fails msg, fs) =>
      (SQLITE_ERROR, None,
       Sqlite3 (tasks db) (sqlite_sequence db) (last_insert_rowid db) (changes db)
               msg (statements db) fs)
  | (_, fs) => execute s db fs
  end.

(** The rows of the table in the order of a scan: by row id. *)
Definition rowid_le (x y : Z * row) : Prop := x.1 ≤ y.1.

#[global] Instance rowid_le_dec x y : Decision (rowid_le x y).
Proof. unfold rowid_le. apply _. Defined.

Definition scan (t : gmap Z row) : list (Z * row) :=
  merge_sort rowid_le (map_to_list t).

(** The rows for which the successive [sqlite3_step] calls of
    [SELECT ... FROM tasks] answer [SQLITE_ROW], and the answer that ends
    the loop: all rows and [SQLITE_DONE], or no row and an error when the
    step fails. *)
Definition step_rows (db : sqlite3) : list (Z * row) * rc * sqlite3 :=
  match next_fault db with
  | (step_fails msg, fs) =>
      ([], SQLITE_ERROR,
       Sqlite3 (tasks db) (sqlite_sequence db) (last_insert_rowid db) (changes db)
               msg (statements db) fs)
  | (_, fs) =>
      (scan (tasks db), SQLITE_DONE,
       Sqlite3 (tasks db) (sqlite_sequence db) (last_insert_rowid db) (changes db)
               no_more_rows (statements db) fs)
  end.

(** [sqlite3_column_int(stmt, i)] for the columns read as integers (0: id,
    3: completed).  SQLite documents the result of the column functions
    as undefined when the statement does not point to a valid row; its
    implementation then answers with the NULL value: 0 here. *)
Definition column_int (cur : option (Z * row)) (i : nat) : Z :=
  match cur, i with
  | Some (k, _), O => to_int k
  | Some (_, r), 3%nat => to_int (row_completed r)
  | _, _ => 0
  end.

(** [sqlite3_column_text(stmt, i)] for the columns read as text (1: title,
    2: description).  [None] is the null pointer, the answer for the NULL
    value, so also when the statement points to no row. *)
Definition column_text (cur : option (Z * row)) (i : nat) : option string :=
  match cur, i with
  | Some (_, r), 1%nat => Some (row_title r)
  | Some (_, r), 2%nat => Some (row_description r)
  | _, _ => None
  end.

(** The database file right after [Database::initialize] on a new file. *)
Definition new : sqlite3 := Sqlite3 ∅ 0 0 0 not_an_error 0 [].

End Sqlite.

Import Sqlite.

(** ** The monad of calls *)

Definition M (A : Type) : Type := sqlite3 → outcome A * sqlite3.

Definition ret {A} (a : A) : M A := λ db, (Returned a, db).

Definition bind {A B} (m : M A) (k : A → M B) : M B :=
  λ db, match m db with
        | (Returned a, db') => k a db'
        | (Thrown e, db') => (Thrown e, db')
        | (Undefined, db') => (Undefined, db')
        end.

Definition throw {A} (e : exception) : M A := λ db, (Thrown e, db).

Definition undefined {A} : M A := λ db, (Undefined, db).

Notation "x <- c1 ;; c2" := (bind c1 (λ x, c2))
  (at level 100, c1 at next level, right associativity).
Notation "c1 ;; c2" := (bind c1 (λ _, c2))
  (at level 100, right associativity).

(** [try { body } catch (const std::exception& e) { handler }] *)
Definition try_catch {A} (body : M A) (handler : exception → M A) : M A :=
  λ db, match body db with
        | (Thrown e, db') => handler e db'
        | r => r
        end.

(** [if (b) m;] *)
Definition when (b : bool) (m : M unit) : M unit := if b then m else ret tt.

(** The SQLite calls as computations. *)
Definition sqlite3_prepare_v2 : M rc := λ db, let '(r, db') := prepare db in (Returned r, db').
Definition sqlite3_step (s : stmt) : M (rc * option (Z * row)) :=
  λ db, let '(r, cur, db') := step s db in (Returned (r, cur), db').
Definition sqlite3_step_rows : M (list (Z * row) * rc) :=
  λ db, let '(rows, r, db') := step_rows db in (Returned (rows, r), db').
Definition sqlite3_finalize (r : rc) : M unit := λ db, (Returned tt, finalize r db).
Definition sqlite3_errmsg : M string := λ db, (Returned (errmsg db), db).
Definition sqlite3_changes : M Z := λ db, (Returned (changes db), db).
Definition sqlite3_last_insert_rowid : M Z := λ db, (Returned (last_insert_rowid db), db).

(** [std::string s = p;] for a [const char* p]: undefined for the null
    pointer. *)
Definition string_of (p : option string) : M string :=
  match p with
  | Some s => ret (c_str s)
  | None => undefined
  end.

(** ** [database.cpp] *)

Module Database.

(** [struct Task] *)
Record Task := mkTask { id : Z; title : string; description : string; completed : bool }.

(** [throw std::runtime_error(sqlite3_errmsg(db_))] *)
Definition throw_errmsg {A} : M A :=
  msg <- sqlite3_errmsg ;; throw (Exception runtime_error msg).

(** [int Database::add_task(const Task& task)] *)
Definition add_task (task : Task) : M Z :=
  r <- sqlite3_prepare_v2 ;;
  if negb (rc_eqb r SQLITE_OK) then throw_errmsg else
  let stmt := INSERT (c_str (title task)) (c_str (description task))
                     (if completed task then 1 else 0) in
  p <- sqlite3_step stmt ;;
  if negb (rc_eqb p.1 SQLITE_DONE) then
    sqlite3_finalize p.1 ;;
    throw (Exception runtime_error "Failed to inserd task")
  else
    rowid <- sqlite3_last_insert_rowid ;;
    let id := to_int rowid in
    sqlite3_finalize p.1 ;;
    ret id.

(** [bool Database::update_task(const Task& task)].  The assignment
    [success = false] after the [throw] is never reached, and the [throw]
    leaves before [sqlite3_finalize]. *)
Definition update_task (task : Task) : M bool :=
  r <- sqlite3_prepare_v2 ;;
  if negb (rc_eqb r SQLITE_OK) then throw_errmsg else
  let stmt := UPDATE (c_str (title task)) (c_str (description task))
                     (if completed task then 1 else 0) (id task) in
  p <- sqlite3_step stmt ;;
  let success := rc_eqb p.1 SQLITE_DONE in
  unchanged <- (if success then n <- sqlite3_changes ;; ret (n =? 0) else ret false) ;;
  if unchanged then throw_errmsg else
  sqlite3_finalize p.1 ;;
  ret success.

(** [bool Database::delete_task(int id)] *)
Definition delete_task (id : Z) : M bool :=
  r <- sqlite3_prepare_v2 ;;
  if negb (rc_eqb r SQLITE_OK) then throw_errmsg else
  let stmt := DELETE id in
  p <- sqlite3_step stmt ;;
  let success := rc_eqb p.1 SQLITE_DONE in
  unchanged <- (if success then n <- sqlite3_changes ;; ret (n =? 0) else ret false) ;;
  if unchanged then throw_errmsg else
  sqlite3_finalize p.1 ;;
  ret success.

(** [Task Database::get_task_by_id(int id)].  The columns are read in the
    branch taken when [sqlite3_step] does NOT answer [SQLITE_ROW]; a row
    that is found leads to the [throw].  The initial [task.id = -1] is
    overwritten before [task] is used. *)
Definition get_task_by_id (id : Z) : M Task :=
  r <- sqlite3_prepare_v2 ;;
  if negb (rc_eqb r SQLITE_OK) then throw_errmsg else
  let stmt := SELECT_BY_ID id in
  p <- sqlite3_step stmt ;;
  if negb (rc_eqb p.1 SQLITE_ROW) then
    let task_id := column_int p.2 0 in
    task_title <- string_of (column_text p.2 1) ;;
    task_description <- string_of (column_text p.2 2) ;;
    let task_completed := negb (column_int p.2 3 =? 0) in
    sqlite3_finalize p.1 ;;
    ret (mkTask task_id task_title task_description task_completed)
  else
    sqlite3_finalize p.1 ;;
    throw (Exception runtime_error ("Task not found with id: " +:+ to_string id)).

(** The body of the [while (sqlite3_step(stmt) == SQLITE_ROW)] loop of
    [get_all_tasks], run over the rows the statement yields. *)
Fixpoint fetch (rows : list (Z * row)) (tasks : list Task) : M (list Task) :=
  match rows with
  | [] => ret tasks
  | cur :: rows' =>
      let task_id := column_int (Some cur) 0 in
      task_title <- string_of (column_text (Some cur) 1) ;;
      task_description <- string_of (column_text (Some cur) 2) ;;
      let task_completed := negb (column_int (Some cur) 3 =? 0) in
      fetch rows' (tasks ++ [mkTask task_id task_title task_description task_completed])
  end.

(** [std::vector<Task> Database::get_all_tasks()] *)
Definition get_all_tasks : M (list Task) :=
  r <- sqlite3_prepare_v2 ;;
  if negb (rc_eqb r SQLITE_OK) then throw_errmsg else
  p <- sqlite3_step_rows ;;
  tasks <- fetch p.1 [] ;;
  sqlite3_finalize p.2 ;;
  ret tasks.

End Database.

(** ** The task manager *)

Module TaskManager.

(** [int TaskManager::create_task(const std::string& title,
                                  const std::string& description = "")] *)
Definition create_task (title description : string) : M Z :=
  when (empty title || (100 <? length title)%nat)
    (when (empty title)
       (throw (Exception invalid_argument "Task title cannot be empty")) ;;
     when (100 <? length title)%nat
       (throw (Exception invalid_argument "Task title too long (max 100 chars)"))) ;;
  let task := Database.mkTask 0 title description false in
  Database.add_task task.

(** [bool TaskManager::update_task(int id, const std::string& title,
                                   const std::string& description, bool complited)] *)
Definition update_task (id : Z) (title description : string) (complited : bool) : M bool :=
  when ((id <=? 0) || empty title)
    (when (id <=? 0)
       (throw (Exception invalid_argument "Invalid task ID")) ;;
     when (empty title)
       (throw (Exception invalid_argument "Task title cannot be empty"))) ;;
  existing_task <- Database.get_task_by_id id ;;
  if Database.id existing_task =? 0 then ret false else
  let updated_task :=
    Database.mkTask (Database.id existing_task) title description complited in
  Database.update_task updated_task.

(** [bool TaskManager::delete_task(int id)] *)
Definition delete_task (id : Z) : M bool :=
  when (id <=? 0) (throw (Exception invalid_argument "Invalid task ID")) ;;
  Database.delete_task id.

(** [Task TaskManager::get_task(int id)] *)
Definition get_task (id : Z) : M Database.Task :=
  when (id <=? 0) (throw (Exception invalid_argument "Invalid task ID")) ;;
  task <- Database.get_task_by_id id ;;
  when (Database.id task <=? 0) (throw (Exception runtime_error "Task not found")) ;;
  ret task.

(** [std::vector<Task> TaskManager::get_all_tasks()] *)
Definition get_all_tasks : M (list Database.Task) := Database.get_all_tasks.

End TaskManager.

(** ** Boost.JSON *)

Module Json.

#[local] Set Warnings "-register-all".

(** [boost::json::value].  [jdouble] carries the bits of the number, which
    the program never looks at. *)
Inductive value :=
| jnull
| jbool (b : bool)
| jint64 (n : Z)
| juint64 (n : Z)
| jdouble (bits : Z)
| jstring (s : string)
| jarray (a : list value)
| jobject (o : list (string * value)).

(** What the program takes from the library: the parser (its answer is
    the parsed value, or the message of the error it throws), the
    serializer, and the messages of the errors thrown by [as_object],
    [as_string] and [at]. *)
Class Library := {
  parse : string → string + value;
  serialize : value → string;
  not_an_object : string;
  not_a_string : string;
  out_of_range : string }.

(** Computations that only return or throw. *)
Definition E (A : Type) : Type := exception + A.

Definition ebind {A B} (m : E A) (k : A → E B) : E B :=
  match m with inl e => inl e | inr a => k a end.

Fixpoint find (key : string) (o : list (string * value)) : option value :=
  match o with
  | [] => None
  | (k, v) :: o' => if String.eqb k key then Some v else find key o'
  end.

(** [o.contains(key)] *)
Definition contains (o : list (string * value)) (key : string) : bool :=
  match find key o with Some _ => true | None => false end.

Section Accessors.
Context {lib : Library}.

(** [json::parse(s)] *)
Definition parse_value (s : string) : E value :=
  match parse s with
  | inl msg => inl (Exception json_error msg)
  | inr v => inr v
  end.

(** [v.as_object()] *)
Definition as_object (v : value) : E (list (string * value)) :=
  match v with
  | jobject o => inr o
  | _ => inl (Exception json_error not_an_object)
  end.

(** [v.as_string()] *)
Definition as_string (v : value) : E string :=
  match v with
  | jstring s => inr s
  | _ => inl (Exception json_error not_a_string)
  end.

(** [v.at(key)] *)
Definition at_key (v : value) (key : string) : E value :=
  ebind (as_object v) (λ o,
    match find key o with
    | Some x => inr x
    | None => inl (Exception json_error out_of_range)
    end).

End Accessors.

End Json.

(** ** [http_server.cpp] *)

Module HttpServer.
Import Json.

Inductive verb := get | post | put | delete_ | head | options | patch | other_verb.

Definition verb_eqb (a b : verb) : bool :=
  match a, b with
  | get, get | post, post | put, put | delete_, delete_ | head, head
  | options, options | patch, patch | other_verb, other_verb => true
  | _, _ => false
  end.

Inductive status := ok | created | not_found | internal_server_error.

Definition status_code (s : status) : Z :=
  match s with
  | ok => 200
  | created => 201
  | not_found => 404
  | internal_server_error => 500
  end.

Inductive field := server | content_type | access_control_allow_origin | content_length.

Definition field_eqb (a b : field) : bool :=
  match a, b with
  | server, server | content_type, content_type
  | access_control_allow_origin, access_control_allow_origin
  | content_length, content_length => true
  | _, _ => false
  end.

(** [http::request<http::string_body>] *)
Record request := Request {
  method : verb;
  target : string;
  req_version : Z;
  req_body : string }.

(** [http::response<http::string_body>] *)
Record response := Response {
  version : Z;
  fields : list (field * string);
  result : status;
  body : string }.

(** [res.set(f, v)] *)
Definition set (f : field) (v : string) (res : response) : response :=
  Response (version res)
           (List.filter (λ fv, negb (field_eqb fv.1 f)) (fields res) ++ [(f, v)])
           (result res) (body res).

(** [res.result(s); res.body() = b;] *)
Definition answer (s : status) (b : string) (res : response) : response :=
  Response (version res) (fields res) s b.

(** [res.prepare_payload()] *)
Definition prepare_payload (res : response) : response :=
  set content_length (to_string (Z.of_nat (length (body res)))) res.

(** A computation that only returns or throws, run as a call. *)
Definition lift {A} (m : E A) : M A :=
  match m with
  | inl e => throw e
  | inr a => ret a
  end.

Section Handler.
Context {lib : Library}.

(** The JSON object of a task in [GET /tasks]. *)
Definition task_json (task : Database.Task) : value :=
  jobject [("id", jint64 (Database.id task));
           ("title", jstring (Database.title task));
           ("description", jstring (Database.description task));
           ("completed", jbool (Database.completed task))].

(** The arguments [POST /tasks] passes to [create_task], from the request
    body: the parse, the test for [title], and the two argument
    expressions.  Both argument expressions can only fail in [as_string],
    with the same error, so their order of evaluation does not show. *)
Definition post_arguments (b : string) : E (string * string) :=
  ebind (parse_value b) (λ request_json,
  ebind (as_object request_json) (λ o,
  if negb (contains o "title")
  then inl (Exception runtime_error "Field 'title' is required")
  else
  ebind (at_key request_json "title") (λ t,
  ebind (as_string t) (λ title,
  ebind (as_object request_json) (λ o',
  ebind (if contains o' "description"
         then ebind (at_key request_json "description") (λ d,
              ebind (as_string d) (λ description, inr (c_str description)))
         else inr "") (λ description,
  inr (c_str title, description))))))).

(** The response before the [try] block. *)
Definition new_response (req : request) : response :=
  set access_control_allow_origin "*"
    (set content_type "application/json"
       (set server "C++ Rest Server"
          (Response (req_version req) [] ok ""))).

(** The [try] block of [handle_api_request]; [res] is only assigned after
    the last call that can throw. *)
Definition dispatch (req : request) (res : response) : M response :=
  if verb_eqb (method req) get && String.eqb (target req) "/tasks" then
    tasks <- TaskManager.get_all_tasks ;;
    let tasks_json := map task_json tasks in
    ret (answer ok (serialize (jarray tasks_json)) res)
  else if verb_eqb (method req) post && String.eqb (target req) "/tasks" then
    args <- lift (post_arguments (req_body req)) ;;
    id <- TaskManager.create_task args.1 args.2 ;;
    ret (answer created (serialize (jobject [("id", jint64 id)])) res)
  else
    ret (answer not_found (serialize (jobject [("error", jstring "Not found")])) res).

(** The [catch (const std::exception& e)] block. *)
Definition on_exception (res : response) (e : exception) : M response :=
  ret (answer internal_server_error
              (serialize (jobject [("error", jstring (what e))])) res).

(** [http::response<http::string_body>
     HttpServer::handle_api_request(const http::request<http::string_body>& req)] *)
Definition handle_api_request (req : request) : M response :=
  let res := new_response req in
  res' <- try_catch (dispatch req res) (on_exception res) ;;
  ret (prepare_payload res').

End Handler.

End HttpServer.

(** * Vocabulary of the properties *)

(** The first fault of the script, if any, does not hit the statement:
    it is prepared and it runs. *)
Definition fault_free (db : sqlite3) : Prop := (next_fault db).1 = no_fault.

(** The calls of the title invariant, and a sequence of them run on a
    connection.  A call that throws leaves the connection to the next call
    as it is; so does a call that ends in undefined behaviour, which in
    practice kills the process: the file keeps what was written. *)
Inductive call :=
| CreateTask (title description : string)
| UpdateTask (id : Z) (title description : string) (completed : bool).

Definition perform (c : call) (db : sqlite3) : sqlite3 :=
  match c with
  | CreateTask t d => (TaskManager.create_task t d db).2
  | UpdateTask i t d b => (TaskManager.update_task i t d b db).2
  end.

Definition run (calls : list call) (db : sqlite3) : sqlite3 :=
  foldl (λ db c, perform c db) db calls.

Definition title_short (r : row) : Prop := (length (row_title r) ≤ 100)%nat.
Definition title_ok (r : row) : Prop := row_title r ≠ "" ∧ title_short r.

Definition titles_short (db : sqlite3) : Prop :=
  map_Forall (λ _ r, title_short r) (tasks db).
Definition titles_ok (db : sqlite3) : Prop :=
  map_Forall (λ _ r, title_ok r) (tasks db).

(** The title given to [create_task] does not begin with a NUL byte. *)
Definition no_leading_nul (c : call) : Prop :=
  match c with
  | CreateTask (String a _) _ => a ≠ NUL
  | _ => True
  end.

(** The title [POST /tasks] finds in a request body, when the body parses
    to an object whose [title] member is a string. *)
Definition title_of_body {lib : Json.Library} (b : string) : option string :=
  match Json.parse b with
  | inr (Json.jobject o) =>
      match Json.find "title" o with
      | Some (Json.jstring s) => Some s
      | _ => None
      end
  | _ => None
  end.

(** The connection after the server has answered a sequence of requests. *)
Definition serve {lib : Json.Library} (reqs : list HttpServer.request) (db : sqlite3) : sqlite3 :=
  foldl (λ db req, (HttpServer.handle_api_request req db).2) db reqs.

(** ** Sample data *)

(** A title of 101 characters. *)
Definition title_101 : string :=
  "aaaaaaaaaaaaaaaaaaaaaaaaaaaaaaaaaaaaaaaaaaaaaaaaaaaaaaaaaaaaaaaaaaaaaaaaaaaaaaaaaaaaaaaaaaaaaaaaaaaaa".

(** The connection after [create_task("Buy milk")] on a new file. *)
Definition one_task : sqlite3 := (TaskManager.create_task "Buy milk" "" Sqlite.new).2.

(** A connection whose next [sqlite3_prepare_v2] fails. *)
Definition failing_prepare : sqlite3 :=
  Sqlite3 ∅ 0 0 0 not_an_error 0 [prepare_fails "disk I/O error"].

(** A stand-in for Boost.JSON, enough to run the handler on a few bodies. *)
Definition quote : string := String "034"%char "".

Definition body_with_empty_title : string :=
  "{" +:+ quote +:+ "title" +:+ quote +:+ ":" +:+ quote +:+ quote +:+ "}".

Definition sample_serialize (v : Json.value) : string :=
  match v with
  | Json.jobject [(k, Json.jstring s)] =>
      "{" +:+ quote +:+ k +:+ quote +:+ ":" +:+ quote +:+ s +:+ quote +:+ "}"
  | _ => ""
  end.

Definition sample_library : Json.Library := {|
  Json.parse s :=
    if String.eqb s body_with_empty_title
    then inr (Json.jobject [("title", Json.jstring "")])
    else if String.eqb s "{}" then inr (Json.jobject [])
    else if String.eqb s "[]" then inr (Json.jarray [])
    else inl "syntax error";
  Json.serialize := sample_serialize;
  Json.not_an_object := "not an object";
  Json.not_a_string := "not a string";
  Json.out_of_range := "out of range" |}.

(** ** Vocabulary of the further properties *)

(** The task the loop of [get_all_tasks] builds from a row: the id and
    the completion flag through [sqlite3_column_int], the texts through
    [sqlite3_column_text]. *)
Definition task_of_row (cur : Z * row) : Database.Task :=
  Database.mkTask (to_int cur.1)
                  (c_str (row_title cur.2)) (c_str (row_description cur.2))
                  (negb (to_int (row_completed cur.2) =? 0)).

(** The row [add_task] and [update_task] bind from a task. *)
Definition row_of_task (task : Database.Task) : row :=
  Row (c_str (Database.title task)) (c_str (Database.description task))
      (if Database.completed task then 1 else 0).

(** The calls of [Database], and a sequence of them run on a connection. *)
Inductive store_call :=
| AddTask (task : Database.Task)
| UpdateRow (task : Database.Task)
| DeleteRow (id : Z)
| GetRow (id : Z)
| GetAll.

Definition after (c : store_call) (db : sqlite3) : sqlite3 :=
  match c with
  | AddTask task => (Database.add_task task db).2
  | UpdateRow task => (Database.update_task task db).2
  | DeleteRow id => (Database.delete_task id db).2
  | GetRow id => (Database.get_task_by_id id db).2
  | GetAll => (Database.get_all_tasks db).2
  end.

Definition after_all (cs : list store_call) (db : sqlite3) : sqlite3 :=
  foldl (λ db c, after c db) db cs.

(** A string without NUL byte: a C string is all of it. *)
Definition no_nul (s : string) : Prop := c_str s = s.

(** What every row written by [add_task] or [update_task] satisfies. *)
Definition row_ok (k : Z) (r : row) : Prop :=
  0 < k ∧ no_nul (row_title r) ∧ no_nul (row_description r)
  ∧ (row_completed r = 0 ∨ row_completed r = 1).

Definition rows_ok (db : sqlite3) : Prop := map_Forall row_ok (tasks db).

(** Every row id fits an [int]. *)
Definition ids_fit (db : sqlite3) : Prop :=
  map_Forall (λ k _, 0 < k < 2 ^ 31) (tasks db).

(** The request is one of the two routes of the handler. *)
Definition routed (req : HttpServer.request) : bool :=
  (HttpServer.verb_eqb (HttpServer.method req) HttpServer.get
   || HttpServer.verb_eqb (HttpServer.method req) HttpServer.post)
  && String.eqb (HttpServer.target req) "/tasks".

(** The header fields of a response with body [b]. *)
Definition fields_of (b : string) : list (HttpServer.field * string) :=
  [(HttpServer.server, "C++ Rest Server");
   (HttpServer.content_type, "application/json");
   (HttpServer.access_control_allow_origin, "*");
   (HttpServer.content_length, to_string (Z.of_nat (length b)))].

(** A connection whose next [sqlite3_step] fails, on the table with task 1. *)
Definition failing_step : sqlite3 :=
  Sqlite3 (tasks one_task) 1 1 1 not_an_error 0 [step_fails "disk I/O error"].

(** A connection that has given out the largest id an [int] holds. *)
Definition int_exhausted : sqlite3 :=
  Sqlite3 ∅ (2 ^ 31 - 1) 0 0 not_an_error 0 [].

(** A connection that has given out the largest row id. *)
Definition rowid_exhausted : sqlite3 :=
  Sqlite3 ∅ max_int64 0 0 not_an_error 0 [].

(** A second stand-in for Boost.JSON, which also reads a body with a
    title and a description and a body whose description is a number. *)
Definition body_walk : string :=
  "{" +:+ quote +:+ "title" +:+ quote +:+ ":" +:+ quote +:+ "Walk" +:+ quote +:+ ","
  +:+ quote +:+ "description" +:+ quote +:+ ":" +:+ quote +:+ "the dog" +:+ quote +:+ "}".

Definition body_numbered : string :=
  "{" +:+ quote +:+ "title" +:+ quote +:+ ":" +:+ quote +:+ "Walk" +:+ quote +:+ ","
  +:+ quote +:+ "description" +:+ quote +:+ ":5}".

Definition demo_library : Json.Library := {|
  Json.parse s :=
    if String.eqb s body_walk
    then inr (Json.jobject [("title", Json.jstring "Walk");
                            ("description", Json.jstring "the dog")])
    else if String.eqb s body_numbered
    then inr (Json.jobject [("title", Json.jstring "Walk");
                            ("description", Json.jint64 5)])
    else inl "syntax error";
  Json.serialize := sample_serialize;
  Json.not_an_object := "not an object";
  Json.not_a_string := "not a string";
  Json.out_of_range := "out of range" |}.

Definition get_tasks : HttpServer.request := HttpServer.Request HttpServer.get "/tasks" 11 "".
Definition post_walk : HttpServer.request :=
  HttpServer.Request HttpServer.post "/tasks" 11 body_walk.

(** The answer 201 to [post_walk] on the table with task 1. *)
Definition walk_created : HttpServer.response :=
  HttpServer.answer HttpServer.created
    (sample_serialize (Json.jobject [("id", Json.jint64 2)]))
    (HttpServer.Response 11
       (fields_of (sample_serialize (Json.jobject [("id", Json.jint64 2)])))
       HttpServer.ok "").

(** * Properties *)

(** Unfolds the calls down to the connection record. *)
Ltac run_call :=
  unfold TaskManager.create_task, TaskManager.update_task, TaskManager.delete_task,
         TaskManager.get_task, TaskManager.get_all_tasks,
         Database.add_task, Database.update_task, Database.delete_task,
         Database.get_task_by_id, Database.get_all_tasks, Database.throw_errmsg,
         when, bind, ret, throw, undefined, string_of,
         sqlite3_prepare_v2, sqlite3_step, sqlite3_finalize, sqlite3_errmsg,
         sqlite3_changes, sqlite3_last_insert_rowid, sqlite3_step_rows,
         prepare, step, step_rows, next_fault, execute, finalize;
  simpl.

(** Case analysis on the table lookup the goal branches on. *)
Ltac case_lookup :=
  match goal with
  | |- context [match ?x with Some _ => _ | None => _ end] => destruct x eqn:?
  end.

(** Case analysis on the condition the goal branches on. *)
Ltac case_if :=
  match goal with
  | |- context [if ?b then _ else _] => destruct b eqn:?
  end.

(** ** C strings and integers *)

Lemma c_str_length (s : string) : (length (c_str s) ≤ length s)%nat.
Proof.
  unfold length. induction s as [|a s IH]; simpl; [lia|].
  destruct (Ascii.eqb a NUL); simpl; lia.
Qed.

Lemma c_str_nonempty (a : ascii) (s : string) : a ≠ NUL → c_str (String a s) ≠ "".
Proof.
  intros Ha. simpl. destruct (Ascii.eqb a NUL) eqn:E; [|discriminate].
  apply Ascii.eqb_eq in E. contradiction.
Qed.

Lemma empty_true (s : string) : empty s = true ↔ s = "".
Proof. destruct s; simpl; split; congruence. Qed.

Lemma to_int_small (z : Z) : - 2 ^ 31 ≤ z < 2 ^ 31 → to_int z = z.
Proof. intros Hz. unfold to_int. rewrite Z.mod_small; lia. Qed.

(** ** Row ids *)

Lemma foldr_max_ge (l : list Z) (k : Z) : k ∈ l → k ≤ foldr Z.max 0 l.
Proof.
  induction l as [|x l IH]; simpl; intros Hk.
  - inversion Hk.
  - apply elem_of_cons in Hk as [-> | Hk]; [lia | specialize (IH Hk); lia].
Qed.

Lemma max_rowid_ge (t : gmap Z row) (k : Z) (r : row) :
  t !! k = Some r → k ≤ max_rowid t.
Proof.
  intros Hk. apply foldr_max_ge.
  apply list_elem_of_fmap. exists (k, r). split; [reflexivity|].
  apply elem_of_map_to_list. exact Hk.
Qed.

Lemma next_rowid_positive (db : sqlite3) : 0 < next_rowid db.
Proof.
  unfold next_rowid, max_rowid.
  assert (0 ≤ foldr Z.max 0 (map_to_list (tasks db)).*1) as H.
  { induction ((map_to_list (tasks db)).*1); simpl; lia. }
  lia.
Qed.

(** The id AUTOINCREMENT picks is larger than every id given out before
    and is the id of no row. *)
Lemma next_rowid_fresh (db : sqlite3) :
  sqlite_sequence db < next_rowid db ∧ tasks db !! next_rowid db = None.
Proof.
  unfold next_rowid. split; [lia|].
  destruct (tasks db !! (Z.max (sqlite_sequence db) (max_rowid (tasks db)) + 1))
    as [r|] eqn:Hr; [|reflexivity].
  apply max_rowid_ge in Hr. lia.
Qed.

(** ** What the store calls do to the table *)

(** [get_task_by_id] never returns a task and never writes. *)
Lemma get_task_by_id_never_returns (id : Z) (db : sqlite3) :
  match Database.get_task_by_id id db with
  | (Returned _, _) => False
  | (_, db') => tasks db' = tasks db ∧ sqlite_sequence db' = sqlite_sequence db
  end.
Proof.
  run_call. destruct (faults db) as [|[| |] fs]; simpl; auto;
    destruct (tasks db !! id); simpl; auto.
Qed.

(** A row that exists makes [get_task_by_id] throw. *)
Lemma get_task_by_id_found (id : Z) (r : row) (db : sqlite3) :
  fault_free db → tasks db !! id = Some r →
  ∃ db', Database.get_task_by_id id db =
           (Thrown (Exception runtime_error ("Task not found with id: " +:+ to_string id)), db')
         ∧ tasks db' = tasks db ∧ statements db' = statements db.
Proof.
  unfold fault_free. run_call. intros Hf Hr.
  destruct (faults db) as [|[| |] fs]; simpl in *; try discriminate;
    rewrite Hr; simpl; eexists; (split; [reflexivity|]); simpl; auto.
Qed.

(** A row that does not exist makes [get_task_by_id] read the columns of a
    statement that points to no row. *)
Lemma get_task_by_id_missing (id : Z) (db : sqlite3) :
  fault_free db → tasks db !! id = None →
  ∃ db', Database.get_task_by_id id db = (Undefined, db') ∧ tasks db' = tasks db.
Proof.
  unfold fault_free. run_call. intros Hf Hr.
  destruct (faults db) as [|[| |] fs]; simpl in *; try discriminate;
    rewrite Hr; simpl; eexists; (split; [reflexivity|]); simpl; auto.
Qed.

Lemma get_task_found (id : Z) (r : row) (db : sqlite3) :
  0 < id → fault_free db → tasks db !! id = Some r →
  (TaskManager.get_task id db).1
    = Thrown (Exception runtime_error ("Task not found with id: " +:+ to_string id)).
Proof.
  intros Hid Hf Hr. unfold TaskManager.get_task, when, bind, ret.
  destruct (id <=? 0) eqn:E; [apply Z.leb_le in E; lia|]. simpl.
  destruct (get_task_by_id_found id r db Hf Hr) as (db' & -> & _). reflexivity.
Qed.

Lemma get_task_missing (id : Z) (db : sqlite3) :
  0 < id → fault_free db → tasks db !! id = None →
  (TaskManager.get_task id db).1 = Undefined.
Proof.
  intros Hid Hf Hr. unfold TaskManager.get_task, when, bind, ret.
  destruct (id <=? 0) eqn:E; [apply Z.leb_le in E; lia|]. simpl.
  destruct (get_task_by_id_missing id db Hf Hr) as (db' & -> & _). reflexivity.
Qed.

Lemma update_task_keeps_table (i : Z) (t d : string) (b : bool) (db : sqlite3) :
  tasks (TaskManager.update_task i t d b db).2 = tasks db.
Proof.
  unfold TaskManager.update_task, when, bind, throw, ret.
  destruct (i <=? 0); simpl; [reflexivity|].
  destruct (empty t); simpl; [reflexivity|].
  pose proof (get_task_by_id_never_returns i db) as H.
  destruct (Database.get_task_by_id i db) as [[task|e|] db']; simpl;
    [contradiction | apply H | apply H].
Qed.

(** [create_task] leaves the table as it is or adds one row, made of the
    C strings of a title that passed the checks and of the description. *)
Lemma create_task_table (t d : string) (db : sqlite3) :
  tasks (TaskManager.create_task t d db).2 = tasks db
  ∨ (t ≠ "" ∧ (length t ≤ 100)%nat
     ∧ ∃ k, tasks (TaskManager.create_task t d db).2
            = <[k := Row (c_str t) (c_str d) 0]> (tasks db)).
Proof.
  unfold TaskManager.create_task, when, bind, throw, ret.
  destruct (empty t) eqn:He; [left; reflexivity|].
  destruct (100 <? length t)%nat eqn:Hlen; [left; reflexivity|].
  apply Nat.ltb_ge in Hlen.
  assert (t ≠ "") as Hne by (intros ->; discriminate).
  run_call.
  destruct (faults db) as [|[| |] fs]; simpl; auto;
    case_if; simpl; auto;
    right; (split; [exact Hne|]); (split; [exact Hlen|]); eexists; reflexivity.
Qed.

(** The part of the contract of [create_task] the code keeps: with a
    title that passes the checks, a statement that runs and an id that
    fits an [int], it returns the id AUTOINCREMENT picks (positive, larger
    than every id given out before, the id of no row) and stores the row
    under it, not completed. *)
Lemma create_task_new_id (t d : string) (db : sqlite3) :
  t ≠ "" → (length t ≤ 100)%nat → fault_free db → next_rowid db < 2 ^ 31 →
  ∃ db', TaskManager.create_task t d db = (Returned (next_rowid db), db')
         ∧ tasks db' = <[next_rowid db := Row (c_str t) (c_str d) 0]> (tasks db)
         ∧ sqlite_sequence db' = next_rowid db
         ∧ statements db' = statements db.
Proof.
  intros Hne Hlen Hf Hk.
  pose proof (next_rowid_positive db) as Hpos.
  unfold TaskManager.create_task, when, bind, throw, ret.
  destruct (empty t) eqn:He; [apply empty_true in He; contradiction|].
  destruct (100 <? length t)%nat eqn:Hl; [apply Nat.ltb_lt in Hl; lia|].
  revert Hf. unfold fault_free. run_call. intros Hf.
  assert (∀ fs, next_rowid (Sqlite3 (tasks db) (sqlite_sequence db) (last_insert_rowid db)
                              (changes db) not_an_error (S (statements db)) fs)
                = next_rowid db) as Hn by reflexivity.
  assert ((max_int64 <? next_rowid db) = false) as Hfull.
  { apply Z.ltb_ge. unfold max_int64. lia. }
  destruct (faults db) as [|[| |] fs]; simpl in Hf |- *; try discriminate;
    rewrite Hn, Hfull; simpl; rewrite to_int_small by lia;
    eexists; (split; [reflexivity|]); simpl; auto.
Qed.

(** ** Prepared statements *)

(** [add_task] finalizes its statement on every path. *)
Lemma add_task_releases (task : Database.Task) (db : sqlite3) :
  statements (Database.add_task task db).2 = statements db.
Proof.
  run_call. destruct (faults db) as [|[| |] fs]; simpl; auto; case_if; reflexivity.
Qed.

(** The loop of [get_all_tasks] returns: every row has its texts. *)
Lemma fetch_returns (rows : list (Z * row)) (acc : list Database.Task) (db : sqlite3) :
  ∃ tasks, Database.fetch rows acc db = (Returned tasks, db).
Proof.
  revert acc. induction rows as [|[k r] rows IH]; intros acc; simpl.
  - eexists. reflexivity.
  - unfold bind, string_of, ret. simpl. apply IH.
Qed.

(** [get_all_tasks] finalizes its statement on every path, and leaves the
    table alone. *)
Lemma get_all_tasks_releases (db : sqlite3) :
  statements (Database.get_all_tasks db).2 = statements db
  ∧ tasks (Database.get_all_tasks db).2 = tasks db.
Proof.
  unfold Database.get_all_tasks, Database.throw_errmsg, bind, throw,
    sqlite3_prepare_v2, sqlite3_step_rows, sqlite3_errmsg, sqlite3_finalize,
    prepare, step_rows, next_fault, finalize, ret.
  destruct (faults db) as [|[| |] fs]; simpl; auto;
    match goal with
    | |- context [Database.fetch ?rows ?acc ?d] =>
        destruct (fetch_returns rows acc d) as [ts ->]
    end; simpl; auto.
Qed.

(** ** The title invariant *)

Lemma perform_titles_short (c : call) (db : sqlite3) :
  titles_short db → titles_short (perform c db).
Proof.
  unfold titles_short. intros Hdb. destruct c as [t d|i t d b]; simpl.
  - destruct (create_task_table t d db) as [-> | (_ & Hlen & k & ->)]; [exact Hdb|].
    apply map_Forall_insert_2; [|exact Hdb].
    unfold title_short. simpl. pose proof (c_str_length t). lia.
  - rewrite update_task_keeps_table. exact Hdb.
Qed.

Lemma perform_titles_ok (c : call) (db : sqlite3) :
  no_leading_nul c → titles_ok db → titles_ok (perform c db).
Proof.
  unfold titles_ok. intros Hc Hdb. destruct c as [t d|i t d b]; simpl.
  - destruct (create_task_table t d db) as [-> | (Hne & Hlen & k & ->)]; [exact Hdb|].
    apply map_Forall_insert_2; [|exact Hdb].
    split; simpl.
    + destruct t as [|a t]; [congruence|]. apply c_str_nonempty. exact Hc.
    + unfold title_short. simpl. pose proof (c_str_length t). lia.
  - rewrite update_task_keeps_table. exact Hdb.
Qed.

(** What the two calls keep as the code stands.  After any sequence of
    [create_task] and [update_task] calls, on a table whose titles had at
    most 100 characters every title still has at most 100 characters; and
    on a table whose titles were also non-empty every title is still
    non-empty, provided no title given to [create_task] began with a NUL
    byte.  [update_task] checks no length; it keeps the bound only because
    it never writes ([update_task_keeps_table]), which is the defect of
    [get_task_by_id]. *)
Lemma titles_stay_valid (calls : list call) (db : sqlite3) :
  (titles_short db → titles_short (run calls db))
  ∧ (titles_ok db → Forall no_leading_nul calls → titles_ok (run calls db)).
Proof.
  unfold run. revert db. induction calls as [|c calls IH]; intros db; simpl.
  - split; auto.
  - destruct (IH (perform c db)) as [IHs IHo]. split.
    + intros Hdb. apply IHs, perform_titles_short, Hdb.
    + intros Hdb Hcs. inversion Hcs as [|? ? Hc Hcs']; subst.
      apply IHo; [apply perform_titles_ok; assumption | assumption].
Qed.

(** The invariant on a new file, after a [create_task], an [update_task]
    with a title of 101 characters and another [create_task]. *)
Lemma titles_stay_valid_witness :
  titles_ok (run [CreateTask "Buy milk" ""; UpdateTask 1 title_101 "" true;
                  CreateTask "Walk" "the dog"] Sqlite.new).
Proof.
  apply (titles_stay_valid
           [CreateTask "Buy milk" ""; UpdateTask 1 title_101 "" true;
            CreateTask "Walk" "the dog"] Sqlite.new).
  - apply map_Forall_empty.
  - repeat constructor; discriminate.
Defined.

(** C1, on the code.  The title [std::string(1, '\0')], one NUL byte,
    passes the checks of [create_task] (it is not empty, its length is 1),
    the call returns the id 1, and the row is stored with the empty
    title: [create_task] checks the [std::string], [add_task] binds its
    C string.  The table then breaks the invariant. *)
Theorem create_task_stores_empty_title :
  TaskManager.create_task (String NUL "") "" Sqlite.new
    = (Returned 1, run [CreateTask (String NUL "") ""] Sqlite.new)
  ∧ tasks (run [CreateTask (String NUL "") ""] Sqlite.new) !! 1 = Some (Row "" "" 0)
  ∧ ¬ titles_ok (run [CreateTask (String NUL "") ""] Sqlite.new).
Proof.
  split; [reflexivity|]. split; [reflexivity|].
  intros H. specialize (H 1 (Row "" "" 0) eq_refl). destruct H as [H _].
  apply H. reflexivity.
Qed.

(** Through the router the invariant holds without the proviso: the title
    [POST /tasks] passes to [create_task] is a C string. *)
Lemma c_str_no_leading_nul (s d : string) : no_leading_nul (CreateTask (c_str s) d).
Proof.
  destruct s as [|a s]; simpl; [exact I|].
  destruct (Ascii.eqb a NUL) eqn:E; simpl; [exact I|].
  intros ->. discriminate.
Qed.

Section Served.
Context {lib : Json.Library}.
Import Json HttpServer.

Lemma post_arguments_title (b : string) (args : string * string) :
  post_arguments b = inr args → ∃ t, args.1 = c_str t.
Proof.
  unfold post_arguments, parse_value, at_key, as_object, as_string, contains, ebind.
  destruct (parse b) as [msg|v]; [discriminate|].
  destruct v; try discriminate.
  destruct (find "title" o) as [[]|]; simpl; try discriminate.
  destruct (find "description" o) as [[]|]; simpl; try discriminate;
    intros [= <-]; eexists; reflexivity.
Qed.

Lemma handle_api_request_table (req : request) (db : sqlite3) :
  tasks (handle_api_request req db).2 = tasks db
  ∨ ∃ t d, tasks (handle_api_request req db).2
           = tasks (TaskManager.create_task (c_str t) d db).2.
Proof.
  unfold handle_api_request, try_catch, dispatch, on_exception, bind, ret.
  destruct (verb_eqb (method req) get && String.eqb (target req) "/tasks").
  - left. pose proof (get_all_tasks_releases db) as [_ Ht].
    unfold TaskManager.get_all_tasks.
    destruct (Database.get_all_tasks db) as [[ts|e|] db']; exact Ht.
  - destruct (verb_eqb (method req) post && String.eqb (target req) "/tasks");
      [|left; reflexivity].
    destruct (post_arguments (req_body req)) as [e|args] eqn:Hargs;
      [left; reflexivity|].
    destruct (post_arguments_title _ _ Hargs) as [t Ht].
    right. exists t, args.2. simpl. rewrite <- Ht.
    destruct (TaskManager.create_task args.1 args.2 db) as [[id|e|] db']; reflexivity.
Qed.

(** X24.  After the server has answered any sequence of requests, every
    stored title is non-empty and has at most 100 characters, if the
    titles were so before (none on a new file): the title [POST /tasks]
    hands on is a C string, so the checks of [create_task] see what is
    stored. *)
Lemma served_titles_ok (reqs : list request) (db : sqlite3) :
  titles_ok db → titles_ok (serve reqs db).
Proof.
  unfold serve. revert db. induction reqs as [|req reqs IH]; intros db Hdb; simpl.
  - exact Hdb.
  - apply IH. unfold titles_ok.
    destruct (handle_api_request_table req db) as [-> | (t & d & ->)]; [exact Hdb|].
    apply (perform_titles_ok (CreateTask (c_str t) d) db);
      [apply c_str_no_leading_nul | exact Hdb].
Qed.

End Served.

(** ** Validation in [create_task] *)

(** C4.  [create_task] with an empty title throws [std::invalid_argument]
    (the validation error) for an empty title, whose text in the code is
    "Task title cannot be empty", and with a title of more than 100
    characters it throws [std::invalid_argument] for a title that is too
    long, whose text is "Task title too long (max 100 chars)", whatever
    the description; in both cases the connection, and so the table, is
    left as it was: no statement is even prepared. *)
Theorem create_task_rejects_title (title description : string) (db : sqlite3) :
  title = "" ∨ (100 < length title)%nat →
  TaskManager.create_task title description db =
    (Thrown (Exception invalid_argument
               (if empty title then "Task title cannot be empty"
                else "Task title too long (max 100 chars)")),
     db).
Proof.
  intros [-> | Hlen]; [reflexivity|].
  unfold TaskManager.create_task, when, bind, throw, ret.
  destruct title as [|a title]; [simpl in Hlen; lia|].
  simpl empty. simpl orb.
  apply Nat.ltb_lt in Hlen. rewrite Hlen. reflexivity.
Qed.

Lemma create_task_rejects_title_witness :
  TaskManager.create_task "" "d" one_task =
    (Thrown (Exception invalid_argument "Task title cannot be empty"), one_task)
  ∧ TaskManager.create_task title_101 "d" one_task =
    (Thrown (Exception invalid_argument "Task title too long (max 100 chars)"), one_task).
Proof.
  split.
  - apply (create_task_rejects_title "" "d" one_task). left. reflexivity.
  - apply (create_task_rejects_title title_101 "d" one_task). right.
    vm_compute. lia.
Defined.

(** ** Zero rows changed *)

(** C3.  When the statement of [Database::update_task] or
    [Database::delete_task] runs and no row has the id, zero rows change
    and the call throws [std::runtime_error] (the store error), the table
    untouched; when a row has the id, exactly that row changes and the
    call returns [true]. *)
Theorem zero_rows_changed_throws (task : Database.Task) (db : sqlite3) :
  fault_free db →
  match tasks db !! Database.id task with
  | None =>
      (∃ e db', Database.update_task task db = (Thrown e, db')
                ∧ class e = runtime_error ∧ changes db' = 0 ∧ tasks db' = tasks db)
      ∧ (∃ e db', Database.delete_task (Database.id task) db = (Thrown e, db')
                  ∧ class e = runtime_error ∧ changes db' = 0 ∧ tasks db' = tasks db)
  | Some _ =>
      (∃ db', Database.update_task task db = (Returned true, db')
              ∧ changes db' = 1
              ∧ tasks db' =
                  <[Database.id task :=
                      Row (c_str (Database.title task)) (c_str (Database.description task))
                          (if Database.completed task then 1 else 0)]> (tasks db))
      ∧ (∃ db', Database.delete_task (Database.id task) db = (Returned true, db')
                ∧ changes db' = 1
                ∧ tasks db' = delete (Database.id task) (tasks db))
  end.
Proof.
  unfold fault_free. run_call. intros Hf.
  destruct (faults db) as [|[| |] fs]; simpl in Hf |- *; try discriminate;
    case_lookup; simpl; split; repeat eexists.
Qed.

(** No row on a new file; the row of task 1 after one [create_task]. *)
Lemma zero_rows_changed_throws_witness :
  ((∃ e db', Database.update_task (Database.mkTask 1 "t" "d" true) Sqlite.new = (Thrown e, db')
             ∧ class e = runtime_error ∧ changes db' = 0 ∧ tasks db' = tasks Sqlite.new)
   ∧ (∃ e db', Database.delete_task 1 Sqlite.new = (Thrown e, db')
               ∧ class e = runtime_error ∧ changes db' = 0 ∧ tasks db' = tasks Sqlite.new))
  ∧ ((∃ db', Database.update_task (Database.mkTask 1 "t" "d" true) one_task = (Returned true, db')
             ∧ changes db' = 1
             ∧ tasks db' = <[1 := Row "t" "d" 1]> (tasks one_task))
     ∧ (∃ db', Database.delete_task 1 one_task = (Returned true, db')
               ∧ changes db' = 1
               ∧ tasks db' = delete 1 (tasks one_task))).
Proof.
  split.
  - apply (zero_rows_changed_throws (Database.mkTask 1 "t" "d" true) Sqlite.new).
    reflexivity.
  - apply (zero_rows_changed_throws (Database.mkTask 1 "t" "d" true) one_task).
    reflexivity.
Defined.

(** ** The fault boundary of the router *)

Section Router.
Context {lib : Json.Library}.
Import Json HttpServer.

(** C8.  For a request to [GET /tasks] or [POST /tasks], when the call of
    the task manager ([get_all_tasks], or [create_task] on the arguments
    taken from the body) throws an exception [e], of whatever class, the
    response has status 500 and the body is the JSON object whose [error]
    member is [e.what()]. *)
Theorem fault_boundary (req : request) (db db' : sqlite3) (e : exception) :
  target req = "/tasks" →
  (method req = get ∧ TaskManager.get_all_tasks db = (Thrown e, db'))
  ∨ (method req = post
     ∧ ∃ args, post_arguments (req_body req) = inr args
               ∧ TaskManager.create_task args.1 args.2 db = (Thrown e, db')) →
  ∃ res, handle_api_request req db = (Returned res, db')
         ∧ status_code (result res) = 500
         ∧ body res = serialize (jobject [("error", jstring (what e))]).
Proof.
  intros Ht Hcall.
  unfold handle_api_request, try_catch, dispatch, on_exception, bind, ret.
  rewrite Ht.
  destruct Hcall as [[Hm Hcall] | (Hm & args & Hargs & Hcall)]; rewrite Hm; simpl.
  - rewrite Hcall. eexists. split; [reflexivity|]. split; reflexivity.
  - rewrite Hargs. simpl. unfold ret. rewrite Hcall.
    eexists. split; [reflexivity|]. split; reflexivity.
Qed.

(** C10.  For a request to [POST /tasks] whose body is malformed JSON, or
    is no JSON object, or is an object without a [title] member that is a
    string, the response has status 500, its body is a JSON object with an
    [error] member, and the connection (so the table) is left as it was. *)
Theorem post_without_title (req : request) (db : sqlite3) :
  method req = post → target req = "/tasks" →
  title_of_body (req_body req) = None →
  ∃ res m, handle_api_request req db = (Returned res, db)
           ∧ status_code (result res) = 500
           ∧ body res = serialize (jobject [("error", jstring m)]).
Proof.
  intros Hm Ht Hbody.
  unfold handle_api_request, try_catch, dispatch, on_exception, bind, ret.
  rewrite Hm, Ht. simpl.
  assert (∃ e, post_arguments (req_body req) = inl e) as [e ->].
  { unfold title_of_body in Hbody.
    unfold post_arguments, parse_value, at_key, as_object, as_string, contains, ebind.
    destruct (parse (req_body req)) as [msg|v]; [eauto|].
    destruct v; eauto.
    destruct (find "title" o) as [[]|]; simpl; eauto. discriminate. }
  simpl. eexists _, _. split; [reflexivity|]. split; reflexivity.
Qed.

End Router.

(** A store error ([GET /tasks] when the statement cannot be prepared) and
    a validation error ([POST /tasks] with an empty title) both end in
    status 500. *)
Lemma fault_boundary_witness :
  (∃ res, HttpServer.handle_api_request (lib := sample_library)
            (HttpServer.Request HttpServer.get "/tasks" 11 "") failing_prepare
          = (Returned res, Sqlite3 ∅ 0 0 0 "disk I/O error" 0 [])
          ∧ HttpServer.status_code (HttpServer.result res) = 500
          ∧ HttpServer.body res
            = sample_serialize (Json.jobject [("error", Json.jstring "disk I/O error")]))
  ∧ (∃ res, HttpServer.handle_api_request (lib := sample_library)
              (HttpServer.Request HttpServer.post "/tasks" 11 body_with_empty_title)
              Sqlite.new
            = (Returned res, Sqlite.new)
            ∧ HttpServer.status_code (HttpServer.result res) = 500
            ∧ HttpServer.body res
              = sample_serialize
                  (Json.jobject [("error", Json.jstring "Task title cannot be empty")])).
Proof.
  split.
  - apply (fault_boundary (lib := sample_library)
             (HttpServer.Request HttpServer.get "/tasks" 11 "") failing_prepare
             (Sqlite3 ∅ 0 0 0 "disk I/O error" 0 [])
             (Exception runtime_error "disk I/O error")).
    + reflexivity.
    + left. split; reflexivity.
  - apply (fault_boundary (lib := sample_library)
             (HttpServer.Request HttpServer.post "/tasks" 11 body_with_empty_title)
             Sqlite.new Sqlite.new
             (Exception invalid_argument "Task title cannot be empty")).
    + reflexivity.
    + right. split; [reflexivity|]. exists ("", ""). split; reflexivity.
Defined.

(** A body that does not parse. *)
Lemma post_without_title_witness :
  ∃ res m, HttpServer.handle_api_request (lib := sample_library)
             (HttpServer.Request HttpServer.post "/tasks" 11 "{") one_task
           = (Returned res, one_task)
           ∧ HttpServer.status_code (HttpServer.result res) = 500
           ∧ HttpServer.body res
             = sample_serialize (Json.jobject [("error", Json.jstring m)]).
Proof.
  apply (post_without_title (lib := sample_library)
           (HttpServer.Request HttpServer.post "/tasks" 11 "{") one_task);
    reflexivity.
Defined.

(** The answers to a request without [title] and to a route that does not
    exist. *)
Example post_empty_object :
  ∃ res, HttpServer.handle_api_request (lib := sample_library)
           (HttpServer.Request HttpServer.post "/tasks" 11 "{}") Sqlite.new
         = (Returned res, Sqlite.new)
         ∧ HttpServer.status_code (HttpServer.result res) = 500
         ∧ HttpServer.body res
           = sample_serialize
               (Json.jobject [("error", Json.jstring "Field 'title' is required")]).
Proof. eexists. repeat split; reflexivity. Qed.

Example delete_is_not_routed :
  ∃ res, HttpServer.handle_api_request (lib := sample_library)
           (HttpServer.Request HttpServer.delete_ "/tasks/1" 11 "") one_task
         = (Returned res, one_task)
         ∧ HttpServer.status_code (HttpServer.result res) = 404
         ∧ HttpServer.body res
           = sample_serialize (Json.jobject [("error", Json.jstring "Not found")]).
Proof. eexists. repeat split; reflexivity. Qed.

(** ** Where the code departs from its contract *)

(** C2, on the code.  With a positive id that has no row and a non-empty
    title, [update_task] does not return [false]: [get_task_by_id] reads
    the columns of a statement that points to no row, and the null title
    assigned to a [std::string] is undefined behaviour.  The table is
    left as it was. *)
Theorem update_task_missing_row (id : Z) (title description : string) (completed : bool)
    (db : sqlite3) :
  0 < id → title ≠ "" → fault_free db → tasks db !! id = None →
  (TaskManager.update_task id title description completed db).1 = Undefined
  ∧ tasks (TaskManager.update_task id title description completed db).2 = tasks db.
Proof.
  intros Hid Ht Hf Hr. split; [|apply update_task_keeps_table].
  unfold TaskManager.update_task, when, bind, ret.
  destruct (id <=? 0) eqn:E; [apply Z.leb_le in E; lia|].
  destruct (empty title) eqn:E'; [apply empty_true in E'; contradiction|]. simpl.
  destruct (get_task_by_id_missing id db Hf Hr) as (db' & -> & _). reflexivity.
Qed.

Lemma update_task_missing_row_witness :
  (TaskManager.update_task 7 "Buy milk" "" true one_task).1 = Undefined
  ∧ tasks (TaskManager.update_task 7 "Buy milk" "" true one_task).2 = tasks one_task.
Proof.
  apply (update_task_missing_row 7 "Buy milk" "" true one_task);
    [lia | discriminate | reflexivity | reflexivity].
Defined.

(** X27.  [update_task] never returns, whatever its arguments, the table
    and the faults: it throws, or it runs into the read of a statement
    that points to no row; and it never writes. *)
Theorem update_task_never_returns (id : Z) (title description : string) (completed : bool)
    (db : sqlite3) :
  (∀ r, (TaskManager.update_task id title description completed db).1 ≠ Returned r)
  ∧ tasks (TaskManager.update_task id title description completed db).2 = tasks db.
Proof.
  split; [|apply update_task_keeps_table].
  intros r. unfold TaskManager.update_task, when, bind, throw, ret.
  destruct (id <=? 0); simpl; [discriminate|].
  destruct (empty title); simpl; [discriminate|].
  pose proof (get_task_by_id_never_returns id db) as H.
  destruct (Database.get_task_by_id id db) as [[task|e|] db']; simpl;
    [contradiction | discriminate | discriminate].
Qed.

(** On the table with task 1, [update_task(1, "t", "d", true)] throws, the
    row keeps its content, and [get_task(1)] throws as well. *)
Example update_task_existing_row :
  TaskManager.update_task 1 "t" "d" true one_task
    = (Thrown (Exception runtime_error "Task not found with id: 1"), one_task)
  ∧ tasks one_task !! 1 = Some (Row "Buy milk" "" 0)
  ∧ TaskManager.get_task 1 one_task
    = (Thrown (Exception runtime_error "Task not found with id: 1"), one_task).
Proof. repeat split; reflexivity. Qed.

(** C6, on the code.  With a title of 1 to 100 characters, a statement
    that runs and an id that fits an [int], [create_task] returns a
    positive id, larger than every id given out before and the id of no
    row, and stores the row under it, not completed; but [get_task] of
    that id then throws the store's "Task not found with id" error
    instead of returning the task. *)
Theorem get_task_after_create_task (title description : string) (db : sqlite3) :
  title ≠ "" → (length title ≤ 100)%nat → fault_free db → next_rowid db < 2 ^ 31 →
  ∃ id db',
    TaskManager.create_task title description db = (Returned id, db')
    ∧ 0 < id ∧ sqlite_sequence db < id ∧ tasks db !! id = None
    ∧ tasks db' !! id = Some (Row (c_str title) (c_str description) 0)
    ∧ (fault_free db' →
       (TaskManager.get_task id db').1
         = Thrown (Exception runtime_error ("Task not found with id: " +:+ to_string id))).
Proof.
  intros Hne Hlen Hf Hk.
  destruct (create_task_new_id title description db Hne Hlen Hf Hk)
    as (db' & Hcall & Htasks & _).
  pose proof (next_rowid_positive db) as Hpos.
  destruct (next_rowid_fresh db) as [Hseq Hfresh].
  assert (tasks db' !! next_rowid db = Some (Row (c_str title) (c_str description) 0))
    as Hrow by (rewrite Htasks; apply lookup_insert_eq).
  exists (next_rowid db), db'. repeat split; try assumption.
  intros Hf'. eapply get_task_found; eassumption.
Qed.

Lemma get_task_after_create_task_witness :
  ∃ id db',
    TaskManager.create_task "Buy milk" "" Sqlite.new = (Returned id, db')
    ∧ 0 < id ∧ sqlite_sequence Sqlite.new < id ∧ tasks Sqlite.new !! id = None
    ∧ tasks db' !! id = Some (Row "Buy milk" "" 0)
    ∧ (fault_free db' →
       (TaskManager.get_task id db').1
         = Thrown (Exception runtime_error ("Task not found with id: " +:+ to_string id))).
Proof.
  apply (get_task_after_create_task "Buy milk" "" Sqlite.new);
    [discriminate | vm_compute; lia | reflexivity | reflexivity].
Defined.

(** The same on a new file, evaluated: the id is 1 and [get_task(1)]
    throws. *)
Example create_task_then_get_task :
  TaskManager.create_task "Buy milk" "" Sqlite.new = (Returned 1, one_task)
  ∧ tasks one_task !! 1 = Some (Row "Buy milk" "" 0)
  ∧ TaskManager.get_task 1 one_task
    = (Thrown (Exception runtime_error "Task not found with id: 1"), one_task).
Proof. repeat split; reflexivity. Qed.

(** C7, on the code.  After [delete_task] of an id has returned [true],
    no row has the id, and [get_task] of that id runs into the read of a
    statement that points to no row: undefined behaviour, not the "Task
    not found" error. *)
Theorem get_task_after_delete_task (id : Z) (db db' : sqlite3) :
  TaskManager.delete_task id db = (Returned true, db') → fault_free db' →
  tasks db' !! id = None ∧ (TaskManager.get_task id db').1 = Undefined.
Proof.
  intros Hdel Hf.
  assert (0 < id ∧ tasks db' !! id = None) as [Hid Hr].
  { revert Hdel. unfold TaskManager.delete_task, when. run_call.
    destruct (id <=? 0) eqn:E; simpl; [discriminate|]. apply Z.leb_gt in E.
    destruct (faults db) as [|[| |] fs]; simpl; try discriminate;
      case_lookup; simpl; try discriminate;
      intros [= <-]; simpl; (split; [lia | apply lookup_delete_eq]). }
  split; [exact Hr|]. apply get_task_missing; assumption.
Qed.

Lemma get_task_after_delete_task_witness :
  tasks (TaskManager.delete_task 1 one_task).2 !! 1 = None
  ∧ (TaskManager.get_task 1 (TaskManager.delete_task 1 one_task).2).1 = Undefined.
Proof.
  apply (get_task_after_delete_task 1 one_task (TaskManager.delete_task 1 one_task).2);
    reflexivity.
Defined.

(** C9, on the code.  When no row has the id, [Database::update_task] and
    [Database::delete_task] throw before [sqlite3_finalize]: the prepared
    statement stays open. *)
Theorem zero_rows_leak_statement (task : Database.Task) (db : sqlite3) :
  fault_free db → tasks db !! Database.id task = None →
  statements (Database.update_task task db).2 = S (statements db)
  ∧ statements (Database.delete_task (Database.id task) db).2 = S (statements db).
Proof.
  unfold fault_free. run_call. intros Hf Hr.
  destruct (faults db) as [|[| |] fs]; simpl in Hf |- *; try discriminate;
    case_lookup; simpl; try discriminate; split; reflexivity.
Qed.

Lemma zero_rows_leak_statement_witness :
  statements (Database.update_task (Database.mkTask 1 "t" "d" true) Sqlite.new).2 = 1%nat
  ∧ statements (Database.delete_task 1 Sqlite.new).2 = 1%nat.
Proof.
  apply (zero_rows_leak_statement (Database.mkTask 1 "t" "d" true) Sqlite.new);
    reflexivity.
Defined.

(** * Further properties of the code *)

(** ** Listing the table *)

Lemma fetch_appends (rows : list (Z * row)) (acc : list Database.Task) (db : sqlite3) :
  Database.fetch rows acc db = (Returned (acc ++ map task_of_row rows)%list, db).
Proof.
  revert acc. induction rows as [|[k r] rows IH]; intros acc; simpl.
  - rewrite app_nil_r. reflexivity.
  - unfold bind, string_of, ret. simpl. rewrite IH, <- app_assoc. reflexivity.
Qed.

Lemma elem_of_scan (t : gmap Z row) (k : Z) (r : row) :
  (k, r) ∈ scan t ↔ t !! k = Some r.
Proof.
  unfold scan. rewrite merge_sort_Permutation. apply elem_of_map_to_list.
Qed.

Lemma length_scan (t : gmap Z row) : List.length (scan t) = size t.
Proof.
  unfold scan. rewrite merge_sort_Permutation. apply length_map_to_list.
Qed.

Lemma get_all_tasks_lists_rows_aux (db : sqlite3) :
  fault_free db →
  ∃ db', Database.get_all_tasks db = (Returned (map task_of_row (scan (tasks db))), db')
         ∧ tasks db' = tasks db.
Proof.
  unfold fault_free, next_fault. intros Hf.
  unfold Database.get_all_tasks, Database.throw_errmsg, bind, throw,
    sqlite3_prepare_v2, sqlite3_step_rows, sqlite3_errmsg, sqlite3_finalize,
    prepare, step_rows, next_fault, finalize, ret.
  destruct (faults db) as [|[| |] fs]; simpl in Hf |- *; try discriminate;
    rewrite fetch_appends; simpl; eexists; split; reflexivity.
Qed.

(** The task of a row written by the program is the row as stored. *)
Lemma task_of_row_ok (k : Z) (r : row) :
  row_ok k r →
  task_of_row (k, r)
  = Database.mkTask (to_int k) (row_title r) (row_description r) (row_completed r =? 1).
Proof.
  intros (_ & Ht & Hd & Hc). unfold task_of_row. simpl. rewrite Ht, Hd.
  destruct Hc as [-> | ->]; reflexivity.
Qed.

Lemma tasks_of_rows_ok (db : sqlite3) :
  rows_ok db →
  map task_of_row (scan (tasks db))
  = map (λ cur, Database.mkTask (to_int cur.1) (row_title cur.2) (row_description cur.2)
                                (row_completed cur.2 =? 1))
        (scan (tasks db)).
Proof.
  intros Hok. apply map_ext_in. intros [k r] Hin.
  apply list_elem_of_In, elem_of_scan in Hin. apply task_of_row_ok, (Hok k r Hin).
Qed.

(** X1.  On a table whose rows were written by [add_task] and
    [update_task], when its statement runs, [get_all_tasks] returns
    exactly one task per row, in the order of the scan: the row id as an
    [int], the title and the description as stored, and [completed] when
    the flag is 1.  It leaves the table as it was and finalizes its
    statement. *)
Theorem get_all_tasks_lists_rows (db : sqlite3) :
  rows_ok db → fault_free db →
  ∃ db', Database.get_all_tasks db
           = (Returned
                (map (λ cur, Database.mkTask (to_int cur.1) (row_title cur.2)
                                             (row_description cur.2)
                                             (row_completed cur.2 =? 1))
                     (scan (tasks db))),
              db')
         ∧ tasks db' = tasks db ∧ statements db' = statements db
         ∧ List.length (scan (tasks db)) = size (tasks db)
         ∧ ∀ k r, (k, r) ∈ scan (tasks db) ↔ tasks db !! k = Some r.
Proof.
  intros Hok Hf.
  destruct (get_all_tasks_lists_rows_aux db Hf) as (db' & Hcall & Ht).
  pose proof (get_all_tasks_releases db) as [Hs _]. rewrite Hcall in Hs.
  exists db'. rewrite <- tasks_of_rows_ok by exact Hok.
  repeat split; auto using length_scan; apply elem_of_scan.
Qed.

Lemma one_task_rows_ok : rows_ok one_task.
Proof.
  unfold rows_ok.
  change (tasks one_task) with (<[1 := Row "Buy milk" "" 0]> (∅ : gmap Z row)).
  apply map_Forall_insert_2; [|apply map_Forall_empty].
  unfold row_ok, no_nul. simpl. repeat split; auto; lia.
Defined.

Lemma get_all_tasks_lists_rows_witness :
  ∃ db', Database.get_all_tasks one_task
           = (Returned
                (map (λ cur, Database.mkTask (to_int cur.1) (row_title cur.2)
                                             (row_description cur.2)
                                             (row_completed cur.2 =? 1))
                     (scan (tasks one_task))),
              db')
         ∧ tasks db' = tasks one_task ∧ statements db' = statements one_task
         ∧ List.length (scan (tasks one_task)) = size (tasks one_task)
         ∧ ∀ k r, (k, r) ∈ scan (tasks one_task) ↔ tasks one_task !! k = Some r.
Proof.
  apply (get_all_tasks_lists_rows one_task); [apply one_task_rows_ok | reflexivity].
Defined.



(** ** A statement that cannot be prepared *)

(** X3.  When [sqlite3_prepare_v2] fails, each of the five operations of
    [Database] throws [std::runtime_error] with SQLite's message, writes
    nothing and leaves no statement open. *)
Theorem prepare_failure_throws (db : sqlite3) (msg : string) (fs : list fault)
    (task : Database.Task) (id : Z) :
  faults db = prepare_fails msg :: fs →
  let db' := Sqlite3 (tasks db) (sqlite_sequence db) (last_insert_rowid db)
                     (changes db) msg (statements db) fs in
  Database.add_task task db = (Thrown (Exception runtime_error msg), db')
  ∧ Database.update_task task db = (Thrown (Exception runtime_error msg), db')
  ∧ Database.delete_task id db = (Thrown (Exception runtime_error msg), db')
  ∧ Database.get_task_by_id id db = (Thrown (Exception runtime_error msg), db')
  ∧ Database.get_all_tasks db = (Thrown (Exception runtime_error msg), db').
Proof.
  intros Hf. run_call. rewrite Hf. simpl. repeat split.
Qed.

Lemma prepare_failure_throws_witness :
  Database.add_task (Database.mkTask 0 "t" "d" false) failing_prepare
    = (Thrown (Exception runtime_error "disk I/O error"),
       Sqlite3 ∅ 0 0 0 "disk I/O error" 0 [])
  ∧ Database.get_all_tasks failing_prepare
    = (Thrown (Exception runtime_error "disk I/O error"),
       Sqlite3 ∅ 0 0 0 "disk I/O error" 0 []).
Proof.
  pose proof (prepare_failure_throws failing_prepare "disk I/O error" []
                (Database.mkTask 0 "t" "d" false) 1 eq_refl) as H.
  split; [apply H | apply H].
Defined.

(** ** Inserting *)

Lemma to_int_le (z : Z) : 0 ≤ z → to_int z ≤ z.
Proof.
  intros Hz. unfold to_int.
  destruct (Z.lt_ge_cases z (2 ^ 31)) as [Hlt | Hge].
  - rewrite Z.mod_small; lia.
  - pose proof (Z.mod_pos_bound (z + 2 ^ 31) (2 ^ 32)). lia.
Qed.

Lemma to_int_range (z : Z) : - 2 ^ 31 ≤ to_int z < 2 ^ 31.
Proof.
  unfold to_int. pose proof (Z.mod_pos_bound (z + 2 ^ 31) (2 ^ 32)). lia.
Qed.

Lemma add_task_adds_one_row_aux (task : Database.Task) (db : sqlite3) :
  fault_free db → next_rowid db ≤ max_int64 →
  ∃ db', Database.add_task task db = (Returned (to_int (next_rowid db)), db').
Proof.
  unfold fault_free. intros Hf Hk.
  assert ((max_int64 <? next_rowid db) = false) as Hfull by (apply Z.ltb_ge; lia).
  assert (∀ fs, next_rowid (Sqlite3 (tasks db) (sqlite_sequence db) (last_insert_rowid db)
                              (changes db) not_an_error (S (statements db)) fs)
                = next_rowid db) as Hn by reflexivity.
  revert Hf. run_call. intros Hf.
  destruct (faults db) as [|[| |] fs]; simpl in Hf |- *; try discriminate;
    rewrite Hn, Hfull; simpl; eexists; reflexivity.
Qed.

(** X4.  When its statement runs and a row id is left, [add_task] stores
    the C strings of the title and the description and the flag of the
    task, whatever [task.id], under the id AUTOINCREMENT picks, which was
    the id of no row; every other row is as before, the table has one row
    more, and the call returns that row id converted to [int], with the
    statement finalized. *)
Theorem add_task_adds_one_row (task : Database.Task) (db : sqlite3) :
  fault_free db → next_rowid db ≤ max_int64 →
  ∃ db', Database.add_task task db = (Returned (to_int (next_rowid db)), db')
         ∧ tasks db !! next_rowid db = None
         ∧ tasks db' = <[next_rowid db := row_of_task task]> (tasks db)
         ∧ (∀ k, k ≠ next_rowid db → tasks db' !! k = tasks db !! k)
         ∧ size (tasks db') = S (size (tasks db))
         ∧ sqlite_sequence db' = next_rowid db
         ∧ statements db' = statements db.
Proof.
  unfold fault_free. intros Hf Hk.
  destruct (next_rowid_fresh db) as [_ Hfresh].
  assert ((max_int64 <? next_rowid db) = false) as Hfull by (apply Z.ltb_ge; lia).
  assert (∀ fs, next_rowid (Sqlite3 (tasks db) (sqlite_sequence db) (last_insert_rowid db)
                              (changes db) not_an_error (S (statements db)) fs)
                = next_rowid db) as Hn by reflexivity.
  revert Hf. run_call. intros Hf.
  destruct (faults db) as [|[| |] fs]; simpl in Hf |- *; try discriminate;
    rewrite Hn, Hfull; simpl; eexists; (split; [reflexivity|]); simpl;
    (split; [exact Hfresh|]); (split; [reflexivity|]);
    (split; [intros k Hne; apply lookup_insert_ne; congruence|]);
    (split; [apply map_size_insert_None, Hfresh|]); auto.
Qed.

Lemma add_task_adds_one_row_witness :
  ∃ db', Database.add_task (Database.mkTask 99 "Walk" "the dog" true) one_task
           = (Returned (to_int (next_rowid one_task)), db')
         ∧ tasks one_task !! next_rowid one_task = None
         ∧ tasks db'
           = <[next_rowid one_task := row_of_task (Database.mkTask 99 "Walk" "the dog" true)]>
               (tasks one_task)
         ∧ (∀ k, k ≠ next_rowid one_task → tasks db' !! k = tasks one_task !! k)
         ∧ size (tasks db') = S (size (tasks one_task))
         ∧ sqlite_sequence db' = next_rowid one_task
         ∧ statements db' = statements one_task.
Proof.
  apply (add_task_adds_one_row (Database.mkTask 99 "Walk" "the dog" true) one_task);
    [reflexivity | vm_compute; discriminate].
Defined.

(** X5.  When [sqlite3_step] of the insert does not answer [SQLITE_DONE]
    (the step fails, or no row id is left), [add_task] finalizes the
    statement and throws [std::runtime_error] with its own fixed message,
    not SQLite's; the table and the sequence are as before. *)
Theorem add_task_step_failure (task : Database.Task) (db : sqlite3) :
  (∃ msg fs, faults db = step_fails msg :: fs)
  ∨ (fault_free db ∧ max_int64 < next_rowid db) →
  ∃ db', Database.add_task task db
           = (Thrown (Exception runtime_error "Failed to inserd task"), db')
         ∧ tasks db' = tasks db ∧ sqlite_sequence db' = sqlite_sequence db
         ∧ statements db' = statements db.
Proof.
  unfold fault_free.
  assert (∀ fs, next_rowid (Sqlite3 (tasks db) (sqlite_sequence db) (last_insert_rowid db)
                              (changes db) not_an_error (S (statements db)) fs)
                = next_rowid db) as Hn by reflexivity.
  run_call. intros [(msg & fs & Hf) | [Hf Hk]].
  - rewrite Hf. simpl. eexists. repeat split.
  - apply Z.ltb_lt in Hk.
    destruct (faults db) as [|[| |] fs]; simpl in Hf |- *; try discriminate;
      rewrite Hn, Hk; simpl; eexists; repeat split.
Qed.

Lemma add_task_step_failure_witness :
  (∃ db', Database.add_task (Database.mkTask 0 "t" "d" false) failing_step
            = (Thrown (Exception runtime_error "Failed to inserd task"), db')
          ∧ tasks db' = tasks failing_step
          ∧ sqlite_sequence db' = sqlite_sequence failing_step
          ∧ statements db' = statements failing_step)
  ∧ (∃ db', Database.add_task (Database.mkTask 0 "t" "d" false) rowid_exhausted
              = (Thrown (Exception runtime_error "Failed to inserd task"), db')
            ∧ tasks db' = tasks rowid_exhausted
            ∧ sqlite_sequence db' = sqlite_sequence rowid_exhausted
            ∧ statements db' = statements rowid_exhausted).
Proof.
  split.
  - apply (add_task_step_failure (Database.mkTask 0 "t" "d" false) failing_step).
    left. exists "disk I/O error", []. reflexivity.
  - apply (add_task_step_failure (Database.mkTask 0 "t" "d" false) rowid_exhausted).
    right. split; [reflexivity | vm_compute; reflexivity].
Defined.

(** X6.  [add_task] returns the row id as an [int]: once the ids have
    passed the largest [int], the id it returns is smaller than the id of
    the row it stored, and it names the row, or none, that it named
    before the call. *)
Theorem add_task_id_wraps (task : Database.Task) (db : sqlite3) :
  fault_free db → 2 ^ 31 ≤ next_rowid db ≤ max_int64 →
  ∃ id db', Database.add_task task db = (Returned id, db')
            ∧ id < 2 ^ 31 ≤ next_rowid db
            ∧ tasks db' !! next_rowid db = Some (row_of_task task)
            ∧ tasks db' !! id = tasks db !! id.
Proof.
  intros Hf [Hlo Hhi].
  unfold fault_free in Hf.
  destruct (next_rowid_fresh db) as [_ Hfresh].
  assert ((max_int64 <? next_rowid db) = false) as Hfull by (apply Z.ltb_ge; lia).
  assert (∀ fs, next_rowid (Sqlite3 (tasks db) (sqlite_sequence db) (last_insert_rowid db)
                              (changes db) not_an_error (S (statements db)) fs)
                = next_rowid db) as Hn by reflexivity.
  pose proof (to_int_range (next_rowid db)) as Hr.
  revert Hf. run_call. intros Hf.
  destruct (faults db) as [|[| |] fs]; simpl in Hf |- *; try discriminate;
    rewrite Hn, Hfull; simpl; eexists _, _; (split; [reflexivity|]); simpl;
    (split; [lia|]);
    (split; [apply lookup_insert_eq | apply lookup_insert_ne; lia]).
Qed.

Lemma add_task_id_wraps_witness :
  ∃ id db', Database.add_task (Database.mkTask 0 "t" "d" false) int_exhausted
              = (Returned id, db')
            ∧ id < 2 ^ 31 ≤ next_rowid int_exhausted
            ∧ tasks db' !! next_rowid int_exhausted
              = Some (row_of_task (Database.mkTask 0 "t" "d" false))
            ∧ tasks db' !! id = tasks int_exhausted !! id.
Proof.
  apply (add_task_id_wraps (Database.mkTask 0 "t" "d" false) int_exhausted);
    [reflexivity | vm_compute; split; discriminate].
Defined.

(** ** What the boolean of [update_task] and [delete_task] means *)

Lemma update_task_returned (task : Database.Task) (db db' : sqlite3) (b : bool) :
  Database.update_task task db = (Returned b, db') →
  sqlite_sequence db' = sqlite_sequence db ∧ statements db' = statements db
  ∧ if b
    then is_Some (tasks db !! Database.id task)
         ∧ tasks db' = <[Database.id task := row_of_task task]> (tasks db)
    else tasks db' = tasks db ∧ ∃ msg fs, faults db = step_fails msg :: fs.
Proof.
  run_call.
  destruct (faults db) as [|[| |] fs]; simpl; try discriminate;
    try case_lookup; simpl; try discriminate; intros [= <- <-]; simpl;
    repeat split; eauto.
Qed.

Lemma delete_task_returned (id : Z) (db db' : sqlite3) (b : bool) :
  Database.delete_task id db = (Returned b, db') →
  sqlite_sequence db' = sqlite_sequence db ∧ statements db' = statements db
  ∧ if b
    then is_Some (tasks db !! id) ∧ tasks db' = delete id (tasks db)
    else tasks db' = tasks db ∧ ∃ msg fs, faults db = step_fails msg :: fs.
Proof.
  run_call.
  destruct (faults db) as [|[| |] fs]; simpl; try discriminate;
    try case_lookup; simpl; try discriminate; intros [= <- <-]; simpl;
    repeat split; eauto.
Qed.

(** X7.  A failed [sqlite3_step] makes [Database::update_task] and
    [Database::delete_task] return [false], with no exception, the table
    as before and the statement finalized.  Conversely they return [true]
    only when the row existed and was written (removed), and [false] only
    when the step failed: [false] never stands for a row that is not
    found. *)
Theorem store_boolean_meaning (task : Database.Task) (id : Z) (db : sqlite3) :
  (∀ msg fs, faults db = step_fails msg :: fs →
     ∃ db1 db2,
       Database.update_task task db = (Returned false, db1)
       ∧ Database.delete_task id db = (Returned false, db2)
       ∧ tasks db1 = tasks db ∧ tasks db2 = tasks db
       ∧ statements db1 = statements db ∧ statements db2 = statements db)
  ∧ (∀ b db', Database.update_task task db = (Returned b, db') →
       if b
       then is_Some (tasks db !! Database.id task)
            ∧ tasks db' = <[Database.id task := row_of_task task]> (tasks db)
       else tasks db' = tasks db ∧ ∃ msg fs, faults db = step_fails msg :: fs)
  ∧ (∀ b db', Database.delete_task id db = (Returned b, db') →
       if b
       then is_Some (tasks db !! id) ∧ tasks db' = delete id (tasks db)
       else tasks db' = tasks db ∧ ∃ msg fs, faults db = step_fails msg :: fs).
Proof.
  split; [|split].
  - intros msg fs Hf. run_call. rewrite Hf. simpl. eexists _, _. repeat split.
  - intros b db' H. apply update_task_returned in H as (_ & _ & H). exact H.
  - intros b db' H. apply delete_task_returned in H as (_ & _ & H). exact H.
Qed.

Lemma store_boolean_meaning_witness :
  (∃ db1 db2,
     Database.update_task (Database.mkTask 1 "t" "d" true) failing_step = (Returned false, db1)
     ∧ Database.delete_task 1 failing_step = (Returned false, db2)
     ∧ tasks db1 = tasks failing_step ∧ tasks db2 = tasks failing_step
     ∧ statements db1 = statements failing_step
     ∧ statements db2 = statements failing_step)
  ∧ (is_Some (tasks one_task !! 1)
     ∧ tasks (Database.delete_task 1 one_task).2 = delete 1 (tasks one_task)).
Proof.
  pose proof (store_boolean_meaning (Database.mkTask 1 "t" "d" true) 1 failing_step)
    as (Hfail & _ & _).
  pose proof (store_boolean_meaning (Database.mkTask 1 "t" "d" true) 1 one_task)
    as (_ & _ & Hdel).
  split.
  - apply (Hfail "disk I/O error" []). reflexivity.
  - apply (Hdel true (Database.delete_task 1 one_task).2). reflexivity.
Defined.

(** ** Writing, then listing *)

Lemma c_str_idempotent (s : string) : c_str (c_str s) = c_str s.
Proof.
  induction s as [|a s IH]; simpl; [reflexivity|].
  destruct (Ascii.eqb a NUL) eqn:E; simpl; [reflexivity|]. rewrite E, IH. reflexivity.
Qed.

Lemma task_of_row_of_task (k : Z) (task : Database.Task) :
  - 2 ^ 31 ≤ k < 2 ^ 31 →
  task_of_row (k, row_of_task task)
  = Database.mkTask k (c_str (Database.title task)) (c_str (Database.description task))
                    (Database.completed task).
Proof.
  intros Hk. unfold task_of_row, row_of_task. simpl.
  rewrite !c_str_idempotent, to_int_small by exact Hk.
  destruct (Database.completed task); reflexivity.
Qed.

(** The tasks [get_all_tasks] returns when its statement runs. *)
Lemma get_all_tasks_returns (db : sqlite3) :
  fault_free db →
  (Database.get_all_tasks db).1 = Returned (map task_of_row (scan (tasks db))).
Proof.
  unfold fault_free, next_fault. intros Hf.
  unfold Database.get_all_tasks, Database.throw_errmsg, bind, throw,
    sqlite3_prepare_v2, sqlite3_step_rows, sqlite3_errmsg, sqlite3_finalize,
    prepare, step_rows, next_fault, finalize, ret.
  destruct (faults db) as [|[| |] fs]; simpl in Hf |- *; try discriminate;
    rewrite fetch_appends; reflexivity.
Qed.

Lemma listed (db : sqlite3) (k : Z) (r : row) :
  tasks db !! k = Some r → task_of_row (k, r) ∈ map task_of_row (scan (tasks db)).
Proof.
  intros Hr. apply list_elem_of_In, in_map, list_elem_of_In, elem_of_scan, Hr.
Qed.

(** X8.  After [Database::update_task] has returned [true] for a task
    whose id is an [int], the next [get_all_tasks] whose statement runs
    lists that task: its id, the C strings of its title and description,
    its flag. *)
Theorem update_task_then_get_all_tasks (task : Database.Task) (db db' : sqlite3) :
  - 2 ^ 31 ≤ Database.id task < 2 ^ 31 →
  Database.update_task task db = (Returned true, db') → fault_free db' →
  ∃ listing, (Database.get_all_tasks db').1 = Returned listing
    ∧ Database.mkTask (Database.id task) (c_str (Database.title task))
                      (c_str (Database.description task)) (Database.completed task)
      ∈ listing.
Proof.
  intros Hid Hup Hf. apply update_task_returned in Hup as (_ & _ & _ & Ht).
  eexists. split; [apply get_all_tasks_returns, Hf|].
  rewrite <- (task_of_row_of_task _ task Hid). apply listed.
  rewrite Ht. apply lookup_insert_eq.
Qed.

Lemma update_task_then_get_all_tasks_witness :
  ∃ listing,
    (Database.get_all_tasks
       (Database.update_task (Database.mkTask 1 "Walk" "the dog" true) one_task).2).1
      = Returned listing
    ∧ Database.mkTask 1 "Walk" "the dog" true ∈ listing.
Proof.
  apply (update_task_then_get_all_tasks (Database.mkTask 1 "Walk" "the dog" true) one_task
           (Database.update_task (Database.mkTask 1 "Walk" "the dog" true) one_task).2);
    [simpl; lia | reflexivity | reflexivity].
Defined.

(** X9.  After [create_task] has stored a title of 1 to 100 characters
    (its statement runs, the id fits an [int]), the next [get_all_tasks]
    whose statement runs lists the task with the id [create_task]
    returned, the C strings of the title and the description, and
    [completed = false]. *)
Theorem create_task_then_get_all_tasks (title description : string) (db : sqlite3) :
  title ≠ "" → (length title ≤ 100)%nat → fault_free db → next_rowid db < 2 ^ 31 →
  ∃ id db', TaskManager.create_task title description db = (Returned id, db')
    ∧ (fault_free db' →
       ∃ listing, (TaskManager.get_all_tasks db').1 = Returned listing
         ∧ Database.mkTask id (c_str title) (c_str description) false ∈ listing).
Proof.
  intros Hne Hlen Hf Hk.
  destruct (create_task_new_id title description db Hne Hlen Hf Hk)
    as (db' & Hcall & Htasks & _).
  pose proof (next_rowid_positive db) as Hpos.
  exists (next_rowid db), db'. split; [exact Hcall|]. intros Hf'.
  eexists. split; [apply get_all_tasks_returns, Hf'|].
  pose proof (task_of_row_of_task (next_rowid db)
                (Database.mkTask 0 title description false)) as Heq.
  unfold row_of_task in Heq. simpl in Heq. rewrite <- Heq by lia.
  apply listed. rewrite Htasks. apply lookup_insert_eq.
Qed.

Lemma create_task_then_get_all_tasks_witness :
  ∃ id db', TaskManager.create_task "Walk" "the dog" one_task = (Returned id, db')
    ∧ (fault_free db' →
       ∃ listing, (TaskManager.get_all_tasks db').1 = Returned listing
         ∧ Database.mkTask id "Walk" "the dog" false ∈ listing).
Proof.
  apply (create_task_then_get_all_tasks "Walk" "the dog" one_task);
    [discriminate | vm_compute; lia | reflexivity | reflexivity].
Defined.

Lemma manager_delete_task_returned (id : Z) (db db' : sqlite3) (b : bool) :
  TaskManager.delete_task id db = (Returned b, db') →
  0 < id ∧ Database.delete_task id db = (Returned b, db').
Proof.
  unfold TaskManager.delete_task, when, bind, throw, ret.
  destruct (id <=? 0) eqn:E; [discriminate|]. apply Z.leb_gt in E. auto.
Qed.

(** X10.  After [delete_task] has returned [true] on a table whose ids
    fit an [int], the next [get_all_tasks] whose statement runs lists no
    task with that id, and one task less than the table had rows. *)
Theorem delete_task_then_get_all_tasks (id : Z) (db db' : sqlite3) :
  ids_fit db →
  TaskManager.delete_task id db = (Returned true, db') → fault_free db' →
  ∃ listing, (TaskManager.get_all_tasks db').1 = Returned listing
    ∧ S (List.length listing) = size (tasks db)
    ∧ ∀ task, task ∈ listing → Database.id task ≠ id.
Proof.
  intros Hfit Hdel Hf.
  apply manager_delete_task_returned in Hdel as [Hid Hdel].
  apply delete_task_returned in Hdel as (_ & _ & Hsome & Ht).
  eexists. split; [apply get_all_tasks_returns, Hf|]. split.
  - rewrite length_map, length_scan, Ht, map_size_delete_Some by exact Hsome.
    destruct Hsome as [r Hr].
    assert (size (tasks db) ≠ 0%nat) as Hsz.
    { intros H0. apply map_size_empty_iff in H0. rewrite H0, lookup_empty in Hr.
      discriminate. }
    lia.
  - intros task Hin. apply list_elem_of_In, in_map_iff in Hin as ([k r] & <- & Hin).
    apply list_elem_of_In, elem_of_scan in Hin. rewrite Ht in Hin.
    apply lookup_delete_Some in Hin as [Hne Hr].
    specialize (Hfit k r Hr). simpl in Hfit. simpl.
    rewrite to_int_small by lia. congruence.
Qed.

Lemma delete_task_then_get_all_tasks_witness :
  ∃ listing,
    (TaskManager.get_all_tasks (TaskManager.delete_task 1 one_task).2).1 = Returned listing
    ∧ S (List.length listing) = size (tasks one_task)
    ∧ ∀ task, task ∈ listing → Database.id task ≠ 1.
Proof.
  apply (delete_task_then_get_all_tasks 1 one_task (TaskManager.delete_task 1 one_task).2);
    [|reflexivity|reflexivity].
  unfold ids_fit.
  change (tasks one_task) with (<[1 := Row "Buy milk" "" 0]> (∅ : gmap Z row)).
  apply map_Forall_insert_2; [simpl; lia | apply map_Forall_empty].
Defined.

(** X11.  [delete_task] cannot be repeated: once it has returned [true]
    for an id, the next [delete_task] of that id whose statement runs
    throws [std::runtime_error] and leaves the table as it is. *)
Theorem delete_task_twice (id : Z) (db db' : sqlite3) :
  TaskManager.delete_task id db = (Returned true, db') → fault_free db' →
  ∃ e db'', TaskManager.delete_task id db' = (Thrown e, db'')
            ∧ class e = runtime_error ∧ tasks db'' = tasks db'.
Proof.
  intros Hdel Hf.
  apply manager_delete_task_returned in Hdel as [Hid Hdel].
  apply delete_task_returned in Hdel as (_ & _ & _ & Ht).
  assert (tasks db' !! id = None) as Hnone by (rewrite Ht; apply lookup_delete_eq).
  revert Hf Hnone. unfold fault_free, TaskManager.delete_task, when. run_call.
  destruct (id <=? 0) eqn:E; [apply Z.leb_le in E; lia|]. simpl.
  intros Hf Hnone.
  destruct (faults db') as [|[| |] fs]; simpl in Hf |- *; try discriminate;
    rewrite Hnone; simpl; eexists _, _; repeat split.
Qed.

Lemma delete_task_twice_witness :
  ∃ e db'', TaskManager.delete_task 1 (TaskManager.delete_task 1 one_task).2 = (Thrown e, db'')
            ∧ class e = runtime_error
            ∧ tasks db'' = tasks (TaskManager.delete_task 1 one_task).2.
Proof.
  apply (delete_task_twice 1 one_task (TaskManager.delete_task 1 one_task).2);
    reflexivity.
Defined.

(** ** Sequences of store calls *)

(** What one call of [Database] does to the table: nothing, a new row
    under the next id, a row rewritten in place, or a row removed. *)
Lemma after_table (c : store_call) (db : sqlite3) :
  tasks (after c db) = tasks db
  ∨ (∃ task, tasks (after c db) = <[next_rowid db := row_of_task task]> (tasks db))
  ∨ (∃ task, is_Some (tasks db !! Database.id task)
             ∧ tasks (after c db) = <[Database.id task := row_of_task task]> (tasks db))
  ∨ (∃ k, tasks (after c db) = delete k (tasks db)).
Proof.
  destruct c as [task|task|k|k|]; simpl.
  - assert (∀ fs, next_rowid (Sqlite3 (tasks db) (sqlite_sequence db) (last_insert_rowid db)
                                (changes db) not_an_error (S (statements db)) fs)
                  = next_rowid db) as Hn by reflexivity.
    run_call. destruct (faults db) as [|[| |] fs]; simpl; auto;
      rewrite Hn; case_if; simpl; auto; right; left; exists task; reflexivity.
  - run_call. destruct (faults db) as [|[| |] fs]; simpl; auto;
      case_lookup; simpl; auto; right; right; left; exists task; eauto.
  - run_call. destruct (faults db) as [|[| |] fs]; simpl; auto;
      case_lookup; simpl; auto; right; right; right; exists k; reflexivity.
  - left. pose proof (get_task_by_id_never_returns k db) as H.
    destruct (Database.get_task_by_id k db) as [[task|e|] db']; simpl;
      [contradiction | apply H | apply H].
  - left. apply get_all_tasks_releases.
Qed.

Lemma after_sequence (c : store_call) (db : sqlite3) :
  sqlite_sequence db ≤ sqlite_sequence (after c db).
Proof.
  destruct c as [task|task|k|k|]; simpl.
  - assert (∀ fs, next_rowid (Sqlite3 (tasks db) (sqlite_sequence db) (last_insert_rowid db)
                                (changes db) not_an_error (S (statements db)) fs)
                  = next_rowid db) as Hn by reflexivity.
    destruct (next_rowid_fresh db) as [Hlt _].
    run_call. destruct (faults db) as [|[| |] fs]; simpl; try lia;
      rewrite Hn; case_if; simpl; lia.
  - run_call. destruct (faults db) as [|[| |] fs]; simpl; try lia;
      case_lookup; simpl; lia.
  - run_call. destruct (faults db) as [|[| |] fs]; simpl; try lia;
      case_lookup; simpl; lia.
  - pose proof (get_task_by_id_never_returns k db) as H.
    destruct (Database.get_task_by_id k db) as [[task|e|] db']; simpl;
      [contradiction | destruct H as [_ ->]; lia | destruct H as [_ ->]; lia].
  - unfold Database.get_all_tasks, Database.throw_errmsg, bind, throw,
      sqlite3_prepare_v2, sqlite3_step_rows, sqlite3_errmsg, sqlite3_finalize,
      prepare, step_rows, next_fault, finalize, ret.
    destruct (faults db) as [|[| |] fs]; simpl; try lia;
      rewrite fetch_appends; simpl; lia.
Qed.

Lemma after_all_sequence (cs : list store_call) (db : sqlite3) :
  sqlite_sequence db ≤ sqlite_sequence (after_all cs db).
Proof.
  unfold after_all. revert db. induction cs as [|c cs IH]; intros db; simpl; [lia|].
  pose proof (after_sequence c db). specialize (IH (after c db)). lia.
Qed.

Lemma add_task_returned (task : Database.Task) (db db' : sqlite3) (id : Z) :
  Database.add_task task db = (Returned id, db') →
  id = to_int (sqlite_sequence db') ∧ 0 < sqlite_sequence db'.
Proof.
  pose proof (next_rowid_positive db) as Hpos.
  assert (∀ fs, next_rowid (Sqlite3 (tasks db) (sqlite_sequence db) (last_insert_rowid db)
                              (changes db) not_an_error (S (statements db)) fs)
                = next_rowid db) as Hn by reflexivity.
  run_call. destruct (faults db) as [|[| |] fs]; simpl; try discriminate;
    rewrite Hn; case_if; simpl; try discriminate; intros [= <- <-]; simpl; auto.
Qed.

(** X12.  Ids are not given out twice: when [add_task] has returned an
    id, then after any further calls of [Database] (deletes included) an
    [add_task] whose statement runs, with an id that fits an [int],
    returns a larger id. *)
Theorem add_task_ids_increase (task1 task2 : Database.Task) (cs : list store_call)
    (db db1 : sqlite3) (id1 : Z) :
  Database.add_task task1 db = (Returned id1, db1) →
  fault_free (after_all cs db1) → next_rowid (after_all cs db1) < 2 ^ 31 →
  ∃ id2 db2, Database.add_task task2 (after_all cs db1) = (Returned id2, db2)
             ∧ id1 < id2.
Proof.
  intros Hadd Hf Hk.
  apply add_task_returned in Hadd as [-> Hpos].
  pose proof (to_int_le (sqlite_sequence db1)) as Hle.
  pose proof (after_all_sequence cs db1) as Hmono.
  pose proof (next_rowid_positive (after_all cs db1)) as Hpos'.
  destruct (next_rowid_fresh (after_all cs db1)) as [Hlt _].
  destruct (add_task_adds_one_row_aux task2 (after_all cs db1) Hf) as (db2 & Hcall);
    [unfold max_int64; lia|].
  exists (to_int (next_rowid (after_all cs db1))), db2. split; [exact Hcall|].
  rewrite (to_int_small (next_rowid _)) by lia. lia.
Qed.

(** The id 1, given out and deleted, is not given out again. *)
Lemma add_task_ids_increase_witness :
  ∃ id2 db2,
    Database.add_task (Database.mkTask 0 "Walk" "" false)
      (after_all [DeleteRow 1; GetAll]
         (Database.add_task (Database.mkTask 0 "Buy milk" "" false) Sqlite.new).2)
    = (Returned id2, db2)
    ∧ 1 < id2.
Proof.
  apply (add_task_ids_increase (Database.mkTask 0 "Buy milk" "" false)
           (Database.mkTask 0 "Walk" "" false) [DeleteRow 1; GetAll] Sqlite.new
           (Database.add_task (Database.mkTask 0 "Buy milk" "" false) Sqlite.new).2 1);
    [reflexivity | reflexivity | vm_compute; reflexivity].
Defined.

Lemma row_of_task_ok (k : Z) (task : Database.Task) : 0 < k → row_ok k (row_of_task task).
Proof.
  intros Hk. unfold row_ok, row_of_task, no_nul. simpl.
  rewrite !c_str_idempotent. repeat split; [exact Hk|].
  destruct (Database.completed task); auto.
Qed.

Lemma after_rows_ok (c : store_call) (db : sqlite3) :
  rows_ok db → rows_ok (after c db).
Proof.
  unfold rows_ok. intros Hdb.
  destruct (after_table c db)
    as [-> | [(task & ->) | [(task & [r Hr] & ->) | (k & ->)]]].
  - exact Hdb.
  - apply map_Forall_insert_2; [|exact Hdb].
    apply row_of_task_ok, next_rowid_positive.
  - apply map_Forall_insert_2; [|exact Hdb].
    apply row_of_task_ok. apply (Hdb _ _ Hr).
  - apply map_Forall_delete. exact Hdb.
Qed.

(** X13.  Whatever calls of [Database] are made, with whatever tasks and
    faults, every row keeps a positive id, a title and a description
    without NUL byte, and a flag that is 0 or 1, if the rows had them
    before (none on a new file). *)
Theorem store_calls_keep_rows_ok (cs : list store_call) (db : sqlite3) :
  rows_ok db → rows_ok (after_all cs db).
Proof.
  unfold after_all. revert db. induction cs as [|c cs IH]; intros db Hdb; simpl.
  - exact Hdb.
  - apply IH, after_rows_ok, Hdb.
Qed.

Lemma store_calls_keep_rows_ok_witness :
  rows_ok (after_all [AddTask (Database.mkTask (-5) (String NUL "x") "d" true);
                      UpdateRow (Database.mkTask 1 title_101 "" false);
                      AddTask (Database.mkTask 0 "" "" false);
                      DeleteRow 1; GetRow 2; GetAll] Sqlite.new).
Proof.
  apply (store_calls_keep_rows_ok
           [AddTask (Database.mkTask (-5) (String NUL "x") "d" true);
            UpdateRow (Database.mkTask 1 title_101 "" false);
            AddTask (Database.mkTask 0 "" "" false);
            DeleteRow 1; GetRow 2; GetAll] Sqlite.new).
  apply map_Forall_empty.
Defined.

(** ** The checks of the task manager *)

(** X14.  [update_task], [delete_task] and [get_task] with an id that is
    not positive throw [std::invalid_argument] "Invalid task ID", the id
    being checked before the title, and [update_task] with a positive id
    and an empty title throws "Task title cannot be empty"; in each case
    the connection is left as it was: no statement is prepared. *)
Theorem manager_rejects_arguments (id : Z) (title description : string) (completed : bool)
    (db : sqlite3) :
  (id ≤ 0 →
   TaskManager.update_task id title description completed db
     = (Thrown (Exception invalid_argument "Invalid task ID"), db)
   ∧ TaskManager.delete_task id db
     = (Thrown (Exception invalid_argument "Invalid task ID"), db)
   ∧ TaskManager.get_task id db
     = (Thrown (Exception invalid_argument "Invalid task ID"), db))
  ∧ (0 < id →
     TaskManager.update_task id "" description completed db
       = (Thrown (Exception invalid_argument "Task title cannot be empty"), db)).
Proof.
  unfold TaskManager.update_task, TaskManager.delete_task, TaskManager.get_task,
    when, bind, throw, ret.
  split; intros Hid.
  - apply Z.leb_le in Hid. rewrite Hid. simpl. repeat split.
  - apply Z.leb_gt in Hid. rewrite Hid. reflexivity.
Qed.

Lemma manager_rejects_arguments_witness :
  (TaskManager.update_task 0 "" "d" true one_task
     = (Thrown (Exception invalid_argument "Invalid task ID"), one_task)
   ∧ TaskManager.delete_task 0 one_task
     = (Thrown (Exception invalid_argument "Invalid task ID"), one_task)
   ∧ TaskManager.get_task 0 one_task
     = (Thrown (Exception invalid_argument "Invalid task ID"), one_task))
  ∧ TaskManager.update_task 1 "" "d" true one_task
    = (Thrown (Exception invalid_argument "Task title cannot be empty"), one_task).
Proof.
  split.
  - apply (manager_rejects_arguments 0 "" "d" true one_task). lia.
  - apply (manager_rejects_arguments 1 "" "d" true one_task). lia.
Defined.

(** X15.  [create_task] throws [std::invalid_argument] exactly when the
    title is empty or longer than 100 characters: a title of 1 to 100
    characters never fails the checks, whatever the store then does. *)
Theorem create_task_invalid_argument_iff (title description : string) (db : sqlite3) :
  (∃ msg, (TaskManager.create_task title description db).1
          = Thrown (Exception invalid_argument msg))
  ↔ title = "" ∨ (100 < length title)%nat.
Proof.
  unfold TaskManager.create_task, when, bind, throw, ret.
  destruct (empty title) eqn:He.
  - apply empty_true in He. subst. simpl. split; eauto.
  - assert (title ≠ "") as Hne by (intros ->; discriminate).
    destruct (100 <? length title)%nat eqn:Hlen; simpl.
    + apply Nat.ltb_lt in Hlen. split; eauto.
    + apply Nat.ltb_ge in Hlen. split.
      * intros [msg H]. exfalso. revert H.
        assert (∀ fs, next_rowid (Sqlite3 (tasks db) (sqlite_sequence db)
                                    (last_insert_rowid db) (changes db) not_an_error
                                    (S (statements db)) fs)
                      = next_rowid db) as Hn by reflexivity.
        run_call. destruct (faults db) as [|[| |] fs]; simpl; try discriminate;
          rewrite Hn; case_if; simpl; discriminate.
      * intros [H | H]; [contradiction | lia].
Qed.

(** X16.  [get_task] returns no task, whatever the id and the table: it
    throws, or runs into the read of a statement that points to no row;
    and it never writes. *)
Theorem get_task_never_returns (id : Z) (db : sqlite3) :
  (∀ task, (TaskManager.get_task id db).1 ≠ Returned task)
  ∧ tasks (TaskManager.get_task id db).2 = tasks db.
Proof.
  unfold TaskManager.get_task, when, bind, throw, ret.
  destruct (id <=? 0); simpl; [split; [discriminate | reflexivity]|].
  pose proof (get_task_by_id_never_returns id db) as H.
  destruct (Database.get_task_by_id id db) as [[task|e|] db']; simpl;
    [contradiction | split; [discriminate | apply H] | split; [discriminate | apply H]].
Qed.

(** ** The answers of the request handler *)

Lemma create_task_thrown (title description : string) (db db' : sqlite3) (e : exception) :
  TaskManager.create_task title description db = (Thrown e, db') → tasks db' = tasks db.
Proof.
  unfold TaskManager.create_task, when, bind, throw, ret.
  assert (∀ fs, next_rowid (Sqlite3 (tasks db) (sqlite_sequence db) (last_insert_rowid db)
                              (changes db) not_an_error (S (statements db)) fs)
                = next_rowid db) as Hn by reflexivity.
  destruct (empty title); simpl; [intros [= <- <-]; reflexivity|].
  destruct (100 <? length title)%nat; simpl; [intros [= <- <-]; reflexivity|].
  run_call. destruct (faults db) as [|[| |] fs]; simpl;
    try rewrite Hn; try case_if; simpl; try discriminate;
    intros [= <- <-]; reflexivity.
Qed.

Lemma create_task_defined (title description : string) (db : sqlite3) :
  (TaskManager.create_task title description db).1 ≠ Undefined.
Proof.
  unfold TaskManager.create_task, when, bind, throw, ret.
  assert (∀ fs, next_rowid (Sqlite3 (tasks db) (sqlite_sequence db) (last_insert_rowid db)
                              (changes db) not_an_error (S (statements db)) fs)
                = next_rowid db) as Hn by reflexivity.
  destruct (empty title); simpl; [discriminate|].
  destruct (100 <? length title)%nat; simpl; [discriminate|].
  run_call. destruct (faults db) as [|[| |] fs]; simpl;
    try rewrite Hn; try case_if; simpl; discriminate.
Qed.

Lemma get_all_tasks_defined (db : sqlite3) :
  (TaskManager.get_all_tasks db).1 ≠ Undefined.
Proof.
  unfold TaskManager.get_all_tasks, Database.get_all_tasks, Database.throw_errmsg,
    bind, throw, sqlite3_prepare_v2, sqlite3_step_rows, sqlite3_errmsg,
    sqlite3_finalize, prepare, step_rows, next_fault, finalize, ret.
  destruct (faults db) as [|[| |] fs]; simpl; try discriminate;
    rewrite fetch_appends; discriminate.
Qed.

Section Answers.
Context {lib : Json.Library}.
Import Json HttpServer.

Lemma handler_get (req : request) (db : sqlite3) :
  method req = get → target req = "/tasks" → fault_free db →
  ∃ res db', handle_api_request req db = (Returned res, db')
    ∧ status_code (result res) = 200
    ∧ body res = serialize (jarray (map task_json (map task_of_row (scan (tasks db)))))
    ∧ tasks db' = tasks db.
Proof.
  intros Hm Ht Hf.
  destruct (get_all_tasks_lists_rows_aux db Hf) as (db' & Hcall & Htasks).
  unfold handle_api_request, try_catch, dispatch, on_exception, bind, ret.
  rewrite Hm, Ht. simpl. unfold TaskManager.get_all_tasks. rewrite Hcall.
  eexists _, _. split; [reflexivity|]. repeat split. exact Htasks.
Qed.

Lemma handler_post (req : request) (db : sqlite3) (title description : string) :
  method req = post → target req = "/tasks" →
  post_arguments (req_body req) = inr (title, description) →
  title ≠ "" → (length title ≤ 100)%nat → fault_free db → next_rowid db < 2 ^ 31 →
  ∃ res db', handle_api_request req db = (Returned res, db')
    ∧ status_code (result res) = 201
    ∧ body res = serialize (jobject [("id", jint64 (next_rowid db))])
    ∧ tasks db' = <[next_rowid db := Row (c_str title) (c_str description) 0]> (tasks db).
Proof.
  intros Hm Ht Hargs Hne Hlen Hf Hk.
  destruct (create_task_new_id title description db Hne Hlen Hf Hk)
    as (db' & Hcall & Htasks & _).
  unfold handle_api_request, try_catch, dispatch, on_exception, bind, ret.
  rewrite Hm, Ht, Hargs. simpl. unfold ret. rewrite Hcall.
  eexists _, _. split; [reflexivity|]. repeat split. exact Htasks.
Qed.

(** X17.  [GET /tasks] on a table whose rows were written by [add_task]
    and [update_task], when the statement runs, is answered 200 with the
    JSON array that holds, for each row in the order of the scan, the
    object with the members [id] (the row id as an [int]), [title],
    [description] (as stored) and [completed] (true when the flag is 1);
    the table is left as it was. *)
Theorem get_tasks_answer (req : request) (db : sqlite3) :
  method req = get → target req = "/tasks" → rows_ok db → fault_free db →
  ∃ res db', handle_api_request req db = (Returned res, db')
    ∧ status_code (result res) = 200
    ∧ body res
      = serialize
          (jarray (map (λ cur, jobject [("id", jint64 (to_int cur.1));
                                        ("title", jstring (row_title cur.2));
                                        ("description", jstring (row_description cur.2));
                                        ("completed", jbool (row_completed cur.2 =? 1))])
                       (scan (tasks db))))
    ∧ tasks db' = tasks db.
Proof.
  intros Hm Ht Hok Hf.
  destruct (handler_get req db Hm Ht Hf) as (res & db' & Hcall & Hst & Hbody & Htasks).
  exists res, db'. repeat split; try assumption.
  rewrite Hbody, tasks_of_rows_ok, map_map by exact Hok. reflexivity.
Qed.

(** X18.  [POST /tasks] with a body that yields a title of 1 to 100
    characters, when the statement runs and the id fits an [int], is
    answered 201 with the JSON object [{id}] of the new id, and the row
    is stored under that id, not completed. *)
Theorem post_tasks_answer (req : request) (db : sqlite3) (title description : string) :
  method req = post → target req = "/tasks" →
  post_arguments (req_body req) = inr (title, description) →
  title ≠ "" → (length title ≤ 100)%nat → fault_free db → next_rowid db < 2 ^ 31 →
  ∃ res db', handle_api_request req db = (Returned res, db')
    ∧ status_code (result res) = 201
    ∧ body res = serialize (jobject [("id", jint64 (next_rowid db))])
    ∧ tasks db' = <[next_rowid db := Row (c_str title) (c_str description) 0]> (tasks db).
Proof. apply handler_post. Qed.

(** X19.  Every request that is not exactly [GET /tasks] or [POST /tasks]
    (another method, another path, a trailing slash, a query string) is
    answered 404 with [{"error": "Not found"}], and the connection is
    left as it was. *)
Theorem unrouted_answer (req : request) (db : sqlite3) :
  routed req = false →
  ∃ res, handle_api_request req db = (Returned res, db)
    ∧ status_code (result res) = 404
    ∧ body res = serialize (jobject [("error", jstring "Not found")]).
Proof.
  unfold routed. intros Hr.
  unfold handle_api_request, try_catch, dispatch, on_exception, bind, ret.
  destruct (verb_eqb (method req) get) eqn:Hg;
    destruct (verb_eqb (method req) post) eqn:Hp;
    destruct (String.eqb (target req) "/tasks") eqn:Ht;
    simpl in Hr |- *; try discriminate;
    eexists; repeat split.
Qed.

End Answers.

Section Boundary.
Context {lib : Json.Library}.
Import Json HttpServer.

Lemma create_task_is_add_task (title description : string) (db : sqlite3) :
  (TaskManager.create_task title description db).2 = db
  ∨ TaskManager.create_task title description db
    = Database.add_task (Database.mkTask 0 title description false) db.
Proof.
  unfold TaskManager.create_task, when, bind, throw, ret.
  destruct (empty title); simpl; [left; reflexivity|].
  destruct (100 <? length title)%nat; simpl; [left; reflexivity | right; reflexivity].
Qed.

Lemma handle_api_request_rows_ok (req : request) (db : sqlite3) :
  rows_ok db → rows_ok (handle_api_request req db).2.
Proof.
  intros Hok. unfold rows_ok.
  destruct (handle_api_request_table req db) as [-> | (t & d & ->)]; [exact Hok|].
  destruct (create_task_is_add_task (c_str t) d db) as [-> | ->]; [exact Hok|].
  apply (after_rows_ok (AddTask (Database.mkTask 0 (c_str t) d false)) db Hok).
Qed.

(** X20.  On a table whose rows were written by this program (as on a new
    file), [handle_api_request] always returns a response, whatever the
    request and the faults: no exception leaves it and no path of it is
    undefined; and the table it leaves is again such a table, so that
    every request of a sequence is answered.  The response has the
    version of the request, the fields Server, Content-Type
    [application/json], Access-Control-Allow-Origin [*] and the
    Content-Length of its body, and a status that is 200, 201 or 500 on
    the two routes and 404 otherwise. *)
Theorem handle_api_request_answers (req : request) (db : sqlite3) :
  rows_ok db →
  ∃ res db', handle_api_request req db = (Returned res, db')
    ∧ rows_ok db'
    ∧ version res = req_version req
    ∧ fields res = fields_of (body res)
    ∧ (if routed req
       then result res = ok ∨ result res = created ∨ result res = internal_server_error
       else result res = not_found).
Proof.
  intros Hok. pose proof (handle_api_request_rows_ok req db Hok) as Hok'.
  revert Hok'.
  unfold routed, handle_api_request, try_catch, dispatch, on_exception, bind, ret.
  destruct (String.eqb (target req) "/tasks") eqn:Ht;
    [|rewrite !andb_false_r; intros Hok'; eexists _, _; (split; [reflexivity|]);
      (split; [exact Hok'|]); repeat split].
  rewrite !andb_true_r.
  destruct (verb_eqb (method req) get) eqn:Hg; simpl.
  - pose proof (get_all_tasks_defined db) as Hd.
    destruct (TaskManager.get_all_tasks db) as [[ts|e|] db']; [| |contradiction];
      intros Hok'; eexists _, _; (split; [reflexivity|]); (split; [exact Hok'|]);
      repeat split; auto.
  - destruct (verb_eqb (method req) post) eqn:Hp; simpl.
    + destruct (post_arguments (req_body req)) as [e|args]; simpl.
      * intros Hok'. eexists _, _. split; [reflexivity|]. split; [exact Hok'|].
        repeat split; auto.
      * pose proof (create_task_defined args.1 args.2 db) as Hd. unfold ret.
        destruct (TaskManager.create_task args.1 args.2 db) as [[id|e|] db'];
          [| |contradiction];
          intros Hok'; eexists _, _; (split; [reflexivity|]); (split; [exact Hok'|]);
          repeat split; auto.
    + intros Hok'. eexists _, _. split; [reflexivity|]. split; [exact Hok'|].
      repeat split.
Qed.

(** X21.  Only a 201 writes: when the response has another status, the
    table is as it was before the request. *)
Theorem only_created_writes (req : request) (db db' : sqlite3) (res : response) :
  handle_api_request req db = (Returned res, db') →
  result res ≠ created → tasks db' = tasks db.
Proof.
  unfold handle_api_request, try_catch, dispatch, on_exception, bind, ret.
  destruct (verb_eqb (method req) get && String.eqb (target req) "/tasks").
  - pose proof (get_all_tasks_releases db) as [_ Ht].
    unfold TaskManager.get_all_tasks.
    destruct (Database.get_all_tasks db) as [[ts|e|] db1]; simpl in Ht;
      try discriminate; intros [= <- <-] _; exact Ht.
  - destruct (verb_eqb (method req) post && String.eqb (target req) "/tasks");
      [|intros [= <- <-] _; reflexivity].
    destruct (post_arguments (req_body req)) as [e|args]; simpl;
      [intros [= <- <-] _; reflexivity|]. unfold ret.
    destruct (TaskManager.create_task args.1 args.2 db) as [[id|e|] db1] eqn:Hc;
      try discriminate.
    + intros [= <- <-] Hne. simpl in Hne. contradiction.
    + intros [= <- <-] _. eapply create_task_thrown, Hc.
Qed.

(** X22.  [POST /tasks] with a [description] member that is not a string
    is answered 500 with the library's error for [as_string], although
    the title is valid, and the connection is left as it was. *)
Theorem post_description_not_a_string (req : request) (db : sqlite3)
    (o : list (string * value)) (title : string) (v : value) :
  method req = post → target req = "/tasks" →
  parse (req_body req) = inr (jobject o) →
  find "title" o = Some (jstring title) → find "description" o = Some v →
  (∀ s, v ≠ jstring s) →
  ∃ res, handle_api_request req db = (Returned res, db)
    ∧ status_code (result res) = 500
    ∧ body res = serialize (jobject [("error", jstring (c_str not_a_string))]).
Proof.
  intros Hm Ht Hp Htitle Hdesc Hv.
  unfold handle_api_request, try_catch, dispatch, on_exception, bind, ret.
  rewrite Hm, Ht. simpl.
  assert (post_arguments (req_body req) = inl (Exception json_error not_a_string)) as ->.
  { unfold post_arguments, parse_value, at_key, as_object, as_string, contains, ebind.
    rewrite Hp, Htitle. simpl. rewrite Hdesc.
    destruct v; try reflexivity. exfalso. eapply Hv. reflexivity. }
  simpl. eexists. repeat split.
Qed.

Lemma post_arguments_c_strings (b : string) (title description : string) :
  post_arguments b = inr (title, description) →
  c_str title = title ∧ c_str description = description.
Proof.
  unfold post_arguments, parse_value, at_key, as_object, as_string, contains, ebind.
  destruct (parse b) as [msg|v]; [discriminate|].
  destruct v; try discriminate.
  destruct (find "title" o) as [[]|]; simpl; try discriminate.
  destruct (find "description" o) as [[]|]; simpl; try discriminate;
    intros [= <- <-]; rewrite ?c_str_idempotent; auto.
Qed.

Lemma create_task_returned (title description : string) (db db' : sqlite3) (id : Z) :
  TaskManager.create_task title description db = (Returned id, db') →
  ∃ k, id = to_int k
       ∧ tasks db' = <[k := Row (c_str title) (c_str description) 0]> (tasks db).
Proof.
  unfold TaskManager.create_task, when, bind, throw, ret.
  assert (∀ fs, next_rowid (Sqlite3 (tasks db) (sqlite_sequence db) (last_insert_rowid db)
                              (changes db) not_an_error (S (statements db)) fs)
                = next_rowid db) as Hn by reflexivity.
  destruct (empty title); simpl; [discriminate|].
  destruct (100 <? length title)%nat; simpl; [discriminate|].
  run_call. destruct (faults db) as [|[| |] fs]; simpl; try discriminate;
    rewrite Hn; case_if; simpl; try discriminate;
    intros [= <- <-]; simpl; eexists; split; reflexivity.
Qed.

(** X23.  A task created by [POST /tasks] is listed by the next
    [GET /tasks].  On a table whose rows were written by this program,
    when a [POST /tasks] has been answered 201, its body is the JSON
    object [{id}] of the new id, whether or not the row id fits an [int];
    and a following [GET /tasks] whose statement runs is answered 200
    with the JSON array of the objects of all rows, among them the object
    of the new task: that id, the title and the description taken from
    the request body, and [completed] false. *)
Theorem post_then_get (post_req get_req : request) (db db1 : sqlite3) (res1 : response) :
  rows_ok db →
  handle_api_request post_req db = (Returned res1, db1) → result res1 = created →
  method get_req = get → target get_req = "/tasks" → fault_free db1 →
  ∃ id title description,
    post_arguments (req_body post_req) = inr (title, description)
    ∧ body res1 = serialize (jobject [("id", jint64 id)])
    ∧ ∃ res2 db2 objects,
        handle_api_request get_req db1 = (Returned res2, db2)
        ∧ status_code (result res2) = 200
        ∧ body res2 = serialize (jarray objects)
        ∧ objects
          = map (λ cur, jobject [("id", jint64 (to_int cur.1));
                                 ("title", jstring (row_title cur.2));
                                 ("description", jstring (row_description cur.2));
                                 ("completed", jbool (row_completed cur.2 =? 1))])
                (scan (tasks db1))
        ∧ jobject [("id", jint64 id); ("title", jstring title);
                   ("description", jstring description); ("completed", jbool false)]
          ∈ objects.
Proof.
  intros Hok Hpost Hcreated Hgm Hgt Hf.
  pose proof (handle_api_request_rows_ok post_req db Hok) as Hok1.
  rewrite Hpost in Hok1. simpl in Hok1.
  assert (∃ id title description,
            post_arguments (req_body post_req) = inr (title, description)
            ∧ TaskManager.create_task title description db = (Returned id, db1)
            ∧ body res1 = serialize (jobject [("id", jint64 id)]))
    as (id & title & description & Hargs & Hcall & Hbody).
  { revert Hpost.
    unfold handle_api_request, try_catch, dispatch, on_exception, bind, ret.
    destruct (verb_eqb (method post_req) get && String.eqb (target post_req) "/tasks").
    - destruct (TaskManager.get_all_tasks db) as [[ts|e|] db'];
        try discriminate; intros [= <- <-]; simpl in Hcreated; discriminate.
    - destruct (verb_eqb (method post_req) post && String.eqb (target post_req) "/tasks");
        [|intros [= <- <-]; simpl in Hcreated; discriminate].
      destruct (post_arguments (req_body post_req)) as [e|[t d]]; simpl;
        [intros [= <- <-]; simpl in Hcreated; discriminate|]. unfold ret.
      destruct (TaskManager.create_task t d db) as [[id|e|] db'] eqn:Hc;
        try discriminate; intros [= <- <-];
        [|simpl in Hcreated; discriminate].
      exists id, t, d. split; [reflexivity|]. split; [exact Hc | reflexivity]. }
  exists id, title, description. split; [exact Hargs|]. split; [exact Hbody|].
  destruct (post_arguments_c_strings _ _ _ Hargs) as [Ht Hd].
  apply create_task_returned in Hcall as (k & -> & Htasks).
  destruct (handler_get get_req db1 Hgm Hgt Hf) as (res2 & db2 & Hget & Hst & Hb & _).
  rewrite tasks_of_rows_ok, map_map in Hb by exact Hok1.
  eexists res2, db2, _.
  split; [exact Hget|]. split; [exact Hst|]. split; [exact Hb|]. split; [reflexivity|].
  apply list_elem_of_In, in_map_iff.
  exists (k, Row (c_str title) (c_str description) 0). split.
  - simpl. rewrite Ht, Hd. reflexivity.
  - apply list_elem_of_In, elem_of_scan. rewrite Htasks. apply lookup_insert_eq.
Qed.

End Boundary.

(** ** The answers on sample requests *)

Lemma get_tasks_answer_witness :
  ∃ res db', HttpServer.handle_api_request (lib := demo_library) get_tasks one_task
             = (Returned res, db')
    ∧ HttpServer.status_code (HttpServer.result res) = 200
    ∧ HttpServer.body res
      = sample_serialize
          (Json.jarray
             (map (λ cur, Json.jobject
                            [("id", Json.jint64 (to_int cur.1));
                             ("title", Json.jstring (row_title cur.2));
                             ("description", Json.jstring (row_description cur.2));
                             ("completed", Json.jbool (row_completed cur.2 =? 1))])
                  (scan (tasks one_task))))
    ∧ tasks db' = tasks one_task.
Proof.
  apply (get_tasks_answer (lib := demo_library) get_tasks one_task);
    [reflexivity | reflexivity | apply one_task_rows_ok | reflexivity].
Defined.

Lemma post_tasks_answer_witness :
  ∃ res db', HttpServer.handle_api_request (lib := demo_library) post_walk one_task
             = (Returned res, db')
    ∧ HttpServer.status_code (HttpServer.result res) = 201
    ∧ HttpServer.body res
      = sample_serialize (Json.jobject [("id", Json.jint64 (next_rowid one_task))])
    ∧ tasks db' = <[next_rowid one_task := Row "Walk" "the dog" 0]> (tasks one_task).
Proof.
  apply (post_tasks_answer (lib := demo_library) post_walk one_task "Walk" "the dog");
    [reflexivity | reflexivity | reflexivity | discriminate | vm_compute; lia
    | reflexivity | reflexivity].
Defined.

(** A trailing slash and a query string are not routed. *)
Lemma unrouted_answer_witness :
  (∃ res, HttpServer.handle_api_request (lib := demo_library)
            (HttpServer.Request HttpServer.get "/tasks/" 11 "") one_task
          = (Returned res, one_task)
     ∧ HttpServer.status_code (HttpServer.result res) = 404
     ∧ HttpServer.body res
       = sample_serialize (Json.jobject [("error", Json.jstring "Not found")]))
  ∧ (∃ res, HttpServer.handle_api_request (lib := demo_library)
              (HttpServer.Request HttpServer.get "/tasks?completed=1" 11 "") one_task
            = (Returned res, one_task)
       ∧ HttpServer.status_code (HttpServer.result res) = 404
       ∧ HttpServer.body res
         = sample_serialize (Json.jobject [("error", Json.jstring "Not found")])).
Proof.
  split.
  - apply (unrouted_answer (lib := demo_library)
             (HttpServer.Request HttpServer.get "/tasks/" 11 "") one_task).
    reflexivity.
  - apply (unrouted_answer (lib := demo_library)
             (HttpServer.Request HttpServer.get "/tasks?completed=1" 11 "") one_task).
    reflexivity.
Defined.

(** A [GET /tasks] whose statement cannot be prepared: 500, nothing
    written. *)
Lemma only_created_writes_witness :
  tasks (HttpServer.handle_api_request (lib := demo_library) get_tasks failing_prepare).2
  = tasks failing_prepare.
Proof.
  apply (only_created_writes (lib := demo_library) get_tasks failing_prepare
           (HttpServer.handle_api_request (lib := demo_library) get_tasks failing_prepare).2
           (HttpServer.answer HttpServer.internal_server_error
              (sample_serialize (Json.jobject [("error", Json.jstring "disk I/O error")]))
              (HttpServer.Response 11 (fields_of
                 (sample_serialize (Json.jobject [("error", Json.jstring "disk I/O error")])))
                 HttpServer.ok ""))).
  - reflexivity.
  - discriminate.
Defined.

Lemma post_description_not_a_string_witness :
  ∃ res, HttpServer.handle_api_request (lib := demo_library)
           (HttpServer.Request HttpServer.post "/tasks" 11 body_numbered) one_task
         = (Returned res, one_task)
    ∧ HttpServer.status_code (HttpServer.result res) = 500
    ∧ HttpServer.body res
      = sample_serialize (Json.jobject [("error", Json.jstring "not a string")]).
Proof.
  apply (post_description_not_a_string (lib := demo_library)
           (HttpServer.Request HttpServer.post "/tasks" 11 body_numbered) one_task
           [("title", Json.jstring "Walk"); ("description", Json.jint64 5)]
           "Walk" (Json.jint64 5));
    try reflexivity.
  intros s. discriminate.
Defined.

(** [POST /tasks] for the walk on the table with task 1, answered 201
    with the id 2, then [GET /tasks]. *)
Lemma post_then_get_witness :
  ∃ id title description,
    HttpServer.post_arguments (lib := demo_library) body_walk = inr (title, description)
    ∧ HttpServer.body walk_created = sample_serialize (Json.jobject [("id", Json.jint64 id)])
    ∧ ∃ res2 db2 objects,
        HttpServer.handle_api_request (lib := demo_library) get_tasks
          (HttpServer.handle_api_request (lib := demo_library) post_walk one_task).2
        = (Returned res2, db2)
        ∧ HttpServer.status_code (HttpServer.result res2) = 200
        ∧ HttpServer.body res2 = sample_serialize (Json.jarray objects)
        ∧ objects
          = map (λ cur, Json.jobject
                          [("id", Json.jint64 (to_int cur.1));
                           ("title", Json.jstring (row_title cur.2));
                           ("description", Json.jstring (row_description cur.2));
                           ("completed", Json.jbool (row_completed cur.2 =? 1))])
                (scan (tasks (HttpServer.handle_api_request (lib := demo_library)
                                post_walk one_task).2))
        ∧ Json.jobject [("id", Json.jint64 id); ("title", Json.jstring title);
                        ("description", Json.jstring description);
                        ("completed", Json.jbool false)]
          ∈ objects.
Proof.
  apply (post_then_get (lib := demo_library) post_walk get_tasks one_task
           (HttpServer.handle_api_request (lib := demo_library) post_walk one_task).2
           walk_created);
    [apply one_task_rows_ok | reflexivity | reflexivity | reflexivity | reflexivity
    | reflexivity].
Defined.

(** The table with task 1 is answered on [GET /tasks] and left a table of
    rows written by the program. *)
Lemma handle_api_request_answers_witness :
  ∃ res db', HttpServer.handle_api_request (lib := demo_library) get_tasks one_task
             = (Returned res, db')
    ∧ rows_ok db'
    ∧ HttpServer.version res = HttpServer.req_version get_tasks
    ∧ HttpServer.fields res = fields_of (HttpServer.body res)
    ∧ (if routed get_tasks
       then HttpServer.result res = HttpServer.ok
            ∨ HttpServer.result res = HttpServer.created
            ∨ HttpServer.result res = HttpServer.internal_server_error
       else HttpServer.result res = HttpServer.not_found).
Proof.
  apply (handle_api_request_answers (lib := demo_library) get_tasks one_task).
  apply one_task_rows_ok.
Defined.

Lemma served_titles_ok_witness :
  titles_ok (serve (lib := demo_library)
               [post_walk; get_tasks;
                HttpServer.Request HttpServer.post "/tasks" 11 body_numbered]
               Sqlite.new).
Proof.
  apply (served_titles_ok (lib := demo_library)
           [post_walk; get_tasks;
            HttpServer.Request HttpServer.post "/tasks" 11 body_numbered] Sqlite.new).
  apply map_Forall_empty.
Defined.

(** ** Rows written by the program *)

(** X25.  On a table whose rows were written by [add_task] and
    [update_task] and whose ids fit an [int], [get_all_tasks], when its
    statement runs, lists every row as it is stored: its id, its title,
    its description, and [completed] when the flag is 1. *)
Theorem get_all_tasks_is_faithful (db : sqlite3) (k : Z) (r : row) :
  rows_ok db → ids_fit db → fault_free db → tasks db !! k = Some r →
  ∃ listing, (Database.get_all_tasks db).1 = Returned listing
    ∧ Database.mkTask k (row_title r) (row_description r) (row_completed r =? 1)
      ∈ listing.
Proof.
  intros Hok Hfit Hf Hr.
  eexists. split; [apply get_all_tasks_returns, Hf|].
  destruct (Hok k r Hr) as (_ & Ht & Hd & Hc).
  specialize (Hfit k r Hr). simpl in Hfit.
  assert (task_of_row (k, r)
          = Database.mkTask k (row_title r) (row_description r) (row_completed r =? 1))
    as <-.
  { unfold task_of_row. simpl. rewrite Ht, Hd, to_int_small by lia.
    destruct Hc as [-> | ->]; reflexivity. }
  apply listed, Hr.
Qed.

Lemma get_all_tasks_is_faithful_witness :
  ∃ listing, (Database.get_all_tasks one_task).1 = Returned listing
    ∧ Database.mkTask 1 "Buy milk" "" false ∈ listing.
Proof.
  apply (get_all_tasks_is_faithful one_task 1 (Row "Buy milk" "" 0));
    try reflexivity.
  - unfold rows_ok.
    change (tasks one_task) with (<[1 := Row "Buy milk" "" 0]> (∅ : gmap Z row)).
    apply map_Forall_insert_2; [|apply map_Forall_empty].
    unfold row_ok, no_nul. simpl. repeat split; auto; lia.
  - unfold ids_fit.
    change (tasks one_task) with (<[1 := Row "Buy milk" "" 0]> (∅ : gmap Z row)).
    apply map_Forall_insert_2; [simpl; lia | apply map_Forall_empty].
Defined.

(** X26.  Deleting the task that [add_task] has just stored gives back
    the table as it was before the [add_task] (the id stays used): with
    the statements running and an id that fits an [int], [delete_task]
    of the returned id returns [true]. *)
Theorem add_task_then_delete_task (task : Database.Task) (db db1 : sqlite3) (id : Z) :
  Database.add_task task db = (Returned id, db1) →
  next_rowid db < 2 ^ 31 → fault_free db1 →
  ∃ db2, Database.delete_task id db1 = (Returned true, db2)
         ∧ tasks db2 = tasks db
         ∧ sqlite_sequence db < sqlite_sequence db2.
Proof.
  intros Hadd Hk Hf.
  pose proof (next_rowid_positive db) as Hpos.
  destruct (next_rowid_fresh db) as [Hlt Hfresh].
  assert (id = next_rowid db ∧ tasks db1 = <[next_rowid db := row_of_task task]> (tasks db)
          ∧ sqlite_sequence db1 = next_rowid db) as (-> & Ht & Hs).
  { revert Hadd.
    assert (∀ fs, next_rowid (Sqlite3 (tasks db) (sqlite_sequence db) (last_insert_rowid db)
                                (changes db) not_an_error (S (statements db)) fs)
                  = next_rowid db) as Hn by reflexivity.
    run_call. destruct (faults db) as [|[| |] fs]; simpl; try discriminate;
      rewrite Hn; case_if; simpl; try discriminate; intros [= <- <-]; simpl;
      rewrite to_int_small by lia; auto. }
  revert Hf. unfold fault_free. run_call. intros Hf.
  destruct (faults db1) as [|[| |] fs]; simpl in Hf |- *; try discriminate;
    rewrite Ht, lookup_insert_eq; simpl; eexists; (split; [reflexivity|]); simpl;
    (split; [apply delete_insert_id, Hfresh | lia]).
Qed.

Lemma add_task_then_delete_task_witness :
  ∃ db2, Database.delete_task 2
           (Database.add_task (Database.mkTask 0 "Walk" "" false) one_task).2
         = (Returned true, db2)
         ∧ tasks db2 = tasks one_task
         ∧ sqlite_sequence one_task < sqlite_sequence db2.
Proof.
  apply (add_task_then_delete_task (Database.mkTask 0 "Walk" "" false) one_task
           (Database.add_task (Database.mkTask 0 "Walk" "" false) one_task).2 2);
    reflexivity.
Defined.
